(** * SPIFFS employee record store (spiff_main.c)

    A shallow embedding of the record storage engine of
    [Final Capstone Project/Viveksai/spiff_main.c]: the five-line record
    encoding, the slot-indexed file layout, the mutex discipline around
    slot I/O and the lookup / insert / delete routines, followed by the
    properties of that code.

    Conventions of the embedding.
    - A C string is a Rocq [string]: the bytes before the terminating NUL.
      Wherever the C code reads a buffer as a string ("%s", [strcmp]) the
      model applies [c_str], which cuts at the first NUL byte, so that the
      functions are defined on every Rocq string.
    - The flash file system is a finite map from the slot index (the "%d"
      of "/spiffs/data_%d.txt") to the content of that file, together with
      a flag telling whether the partition is mounted; [fopen] fails on an
      unmounted partition, and for reading also on a missing file.
    - The FreeRTOS mutex is a boolean; taking a mutex that is already held
      with [portMAX_DELAY] never returns, which the monad renders as [None].
    - Calls on the mutex and on [fopen] are recorded in a trace.
    - A local [EmployeeDetails] that the C code declares without an
      initialiser is taken from an oracle [junk], one value per loop
      iteration: the indeterminate content of that stack object. *)

From Stdlib Require Import ZArith Ascii String Bool Lia List.
From stdpp Require Import base option gmap strings.

Open Scope Z_scope.

(** ** Constants *)

Definition MAX_ROWS : Z := 10.
Definition MAX_FIELD_SIZE : nat := 20.

(** [MAX_FILENAME_SIZE] is 30 and "/spiffs/data_%d.txt" takes at most 28
    bytes for an [int], so [snprintf] never cuts the file name: distinct
    indices name distinct files. The files are therefore keyed by index. *)
Definition MAX_FILENAME_SIZE : nat := 30.

(** ** C strings *)

Definition NUL : ascii := Ascii.ascii_of_nat 0.
Definition LF : ascii := Ascii.ascii_of_nat 10.

(** The content of a buffer seen as a C string: everything before the
    first NUL byte. *)
Fixpoint c_str (s : string) : string :=
  match s with
  | EmptyString => EmptyString
  | String c s' => if Ascii.eqb c NUL then EmptyString else String c (c_str s')
  end.

(** The first [n] characters of a string. *)
Fixpoint str_take (n : nat) (s : string) : string :=
  match n, s with
  | S n', String c s' => String c (str_take n' s')
  | _, _ => EmptyString
  end.

(** [snprintf(buf, size, "%s", src)]: at most [size - 1] characters of the
    C string [src] are stored, followed by the terminator. *)
Definition snprintf_s (size : nat) (src : string) : string :=
  str_take (Nat.pred size) (c_str src).

(** [strcmp(a, b) == 0]. *)
Definition strcmp_eq (a b : string) : bool := String.eqb (c_str a) (c_str b).

(** ** Records *)

Record EmployeeDetails : Type := mkEmployee {
  Employee_Name : string;
  Employee_ID : string;
  Employee_Age : string;
  Employee_Position : string;
  Employee_Salary : string
}.

(** [memset(employee, 0, sizeof(EmployeeDetails))]: every field is the
    empty string. *)
Definition zero_employee : EmployeeDetails :=
  mkEmployee EmptyString EmptyString EmptyString EmptyString EmptyString.

Definition set_Name (v : string) (e : EmployeeDetails) : EmployeeDetails :=
  mkEmployee v (Employee_ID e) (Employee_Age e) (Employee_Position e) (Employee_Salary e).
Definition set_ID (v : string) (e : EmployeeDetails) : EmployeeDetails :=
  mkEmployee (Employee_Name e) v (Employee_Age e) (Employee_Position e) (Employee_Salary e).
Definition set_Age (v : string) (e : EmployeeDetails) : EmployeeDetails :=
  mkEmployee (Employee_Name e) (Employee_ID e) v (Employee_Position e) (Employee_Salary e).
Definition set_Position (v : string) (e : EmployeeDetails) : EmployeeDetails :=
  mkEmployee (Employee_Name e) (Employee_ID e) (Employee_Age e) v (Employee_Salary e).
Definition set_Salary (v : string) (e : EmployeeDetails) : EmployeeDetails :=
  mkEmployee (Employee_Name e) (Employee_ID e) (Employee_Age e) (Employee_Position e) v.

(** ** Record codec *)

(** The text written by
    [fprintf(file, "%s\n%s\n%s\n%s\n%s\n", name, id, age, position, salary)]. *)
Definition line (f : string) (rest : string) : string :=
  String.append (c_str f) (String LF rest).

Definition encode (e : EmployeeDetails) : string :=
  line (Employee_Name e) (line (Employee_ID e) (line (Employee_Age e)
    (line (Employee_Position e) (line (Employee_Salary e) EmptyString)))).

(** The conversion "%19[^\n]": the longest prefix of the stream made of at
    most [width] characters other than a newline, and what follows it. *)
Fixpoint scan_set (width : nat) (st : string) : string * string :=
  match width, st with
  | S w, String c st' =>
      if Ascii.eqb c LF then (EmptyString, st)
      else let (tok, rest) := scan_set w st' in (String c tok, rest)
  | _, _ => (EmptyString, st)
  end.

(** The conversion "%*c": one character is read and dropped, if there is
    one. *)
Definition skip_char (st : string) : string :=
  match st with
  | EmptyString => EmptyString
  | String _ st' => st'
  end.

(** [fscanf(file, "%19[^\n]%*c", buf)]: [None] when the call does not
    return 1, which is when the scan set matches no character (end of
    file, or a newline first); otherwise the string now in [buf] and the
    rest of the stream. *)
Definition fscanf_field (st : string) : option (string * string) :=
  match scan_set (Nat.pred MAX_FIELD_SIZE) st with
  | (EmptyString, _) => None
  | (tok, rest) => Some (c_str tok, skip_char rest)
  end.

(** The body of [read_employee_details] once the file is open: the five
    [fscanf] calls in order, each storing into its field of [*employee];
    the first call that fails clears the whole record. *)
Definition decode_into (st : string) (employee : EmployeeDetails) : EmployeeDetails :=
  match fscanf_field st with
  | None => zero_employee
  | Some (v1, st1) =>
    let e1 := set_Name v1 employee in
    match fscanf_field st1 with
    | None => zero_employee
    | Some (v2, st2) =>
      let e2 := set_ID v2 e1 in
      match fscanf_field st2 with
      | None => zero_employee
      | Some (v3, st3) =>
        let e3 := set_Age v3 e2 in
        match fscanf_field st3 with
        | None => zero_employee
        | Some (v4, st4) =>
          let e4 := set_Position v4 e3 in
          match fscanf_field st4 with
          | None => zero_employee
          | Some (v5, _) => set_Salary v5 e4
          end
        end
      end
    end
  end.

(** ** Program state *)

(** Calls on the mutex and on [fopen], in program order. *)
Inductive event : Type :=
  | EvTake
  | EvGive
  | EvOpenW (i : Z)
  | EvOpenR (i : Z).

(** The globals of the program and the flash partition it works on:
    [spiffs_mutex] is [true] while the mutex is held, [files] maps the
    index of "/spiffs/data_<index>.txt" to the content of that file. *)
Record state : Type := mkState {
  mounted : bool;
  files : gmap Z string;
  spiffs_mutex : bool;
  trace : list event;
  num_employees : Z
}.

Definition set_files (f : gmap Z string) (s : state) : state :=
  mkState (mounted s) f (spiffs_mutex s) (trace s) (num_employees s).
Definition set_mutex (b : bool) (s : state) : state :=
  mkState (mounted s) (files s) b (trace s) (num_employees s).
Definition set_num (n : Z) (s : state) : state :=
  mkState (mounted s) (files s) (spiffs_mutex s) (trace s) n.
Definition log_event (e : event) (s : state) : state :=
  mkState (mounted s) (files s) (spiffs_mutex s) (trace s ++ [e]) (num_employees s).

(** Computations over the program state; [None] is a call that never
    returns (a task blocked for ever on the mutex). *)
Definition M (A : Type) : Type := state -> option (A * state).

#[global] Instance M_ret : MRet M := fun A x s => Some (x, s).
#[global] Instance M_bind : MBind M := fun A B f m s =>
  match m s with
  | Some (a, s') => f a s'
  | None => None
  end.

(** ** Access lock *)

(** [xSemaphoreTake(spiffs_mutex, portMAX_DELAY)]. *)
Definition lock_spiffs : M unit := fun s =>
  if spiffs_mutex s then None
  else Some (tt, log_event EvTake (set_mutex true s)).

(** [xSemaphoreGive(spiffs_mutex)]. *)
Definition unlock_spiffs : M unit := fun s =>
  Some (tt, log_event EvGive (set_mutex false s)).

(** ** File primitives *)

(** [fopen(filename, "w")]: on success the file exists and is empty. *)
Definition fopen_w (i : Z) : M bool := fun s =>
  let s1 := log_event (EvOpenW i) s in
  if mounted s then Some (true, set_files (<[i := EmptyString]> (files s)) s1)
  else Some (false, s1).

(** Output appended to the file open for writing. *)
Definition fprintf_file (i : Z) (text : string) : M unit := fun s =>
  Some (tt, set_files (<[i := String.append (default EmptyString (files s !! i)) text]> (files s)) s).

(** [fopen(filename, "r")]: the stream to read, or [None] for [NULL]. *)
Definition fopen_r (i : Z) : M (option string) := fun s =>
  Some (if mounted s then files s !! i else None, log_event (EvOpenR i) s).

(** ** Slot store *)

Definition write_employee_details (employee_index : Z) (employee : EmployeeDetails) : M unit :=
  lock_spiffs ;;
  ok ← fopen_w employee_index ;
  if negb ok then
    unlock_spiffs
  else
    fprintf_file employee_index (encode employee) ;;
    unlock_spiffs.

(** [employee] is the content of [*employee] at the call; the result is
    its content at the return. *)
Definition read_employee_details (employee_index : Z) (employee : EmployeeDetails) : M EmployeeDetails :=
  lock_spiffs ;;
  file ← fopen_r employee_index ;
  match file with
  | None => unlock_spiffs ;; mret employee
  | Some st => unlock_spiffs ;; mret (decode_into st employee)
  end.

(** ** Record table *)

(** The loop of [get_employee_details_by_id] from index [i] with [n]
    iterations left; [junk i] is the content of the uninitialised local
    [current_employee] of iteration [i]. The caller's [*employee] is
    written on every path (by [memcpy] or by [memset]), so it is the
    result. *)
Fixpoint get_loop (junk : Z -> EmployeeDetails) (employee_id : string) (n : nat) (i : Z)
  : M EmployeeDetails :=
  match n with
  | O => mret zero_employee
  | S n' =>
      current_employee ← read_employee_details i (junk i) ;
      if strcmp_eq (Employee_ID current_employee) employee_id then mret current_employee
      else get_loop junk employee_id n' (i + 1)
  end.

Definition get_employee_details_by_id (junk : Z -> EmployeeDetails) (employee_id : string)
  : M EmployeeDetails :=
  get_loop junk employee_id (Z.to_nat MAX_ROWS) 0.

(** The functions of the table return nothing in C; what they report is
    the diagnostic they log, which the model returns. *)
Inductive add_result : Type := Added | CapacityExceeded.
Inductive delete_result : Type := Deleted | NotFound.

(** Reading the global [num_employees], and [num_employees++]. The
    increment runs under the guard [num_employees < MAX_ROWS], so the
    [int] cannot overflow and the increment is that of [Z]. *)
Definition load_num_employees : M Z := fun s => Some (num_employees s, s).
Definition incr_num_employees : M unit := fun s =>
  Some (tt, set_num (num_employees s + 1) s).

(** The local [new_employee] of [add_new_employee] after its five
    [snprintf(field, sizeof(field), "%s", arg)] calls. *)
Definition new_employee (name id age position salary : string) : EmployeeDetails :=
  mkEmployee (snprintf_s MAX_FIELD_SIZE name) (snprintf_s MAX_FIELD_SIZE id)
             (snprintf_s MAX_FIELD_SIZE age) (snprintf_s MAX_FIELD_SIZE position)
             (snprintf_s MAX_FIELD_SIZE salary).

Definition add_new_employee (name id age position salary : string) : M add_result :=
  n ← load_num_employees ;
  if MAX_ROWS <=? n then mret CapacityExceeded
  else
    slot ← load_num_employees ;
    write_employee_details slot (new_employee name id age position salary) ;;
    incr_num_employees ;;
    mret Added.

Fixpoint delete_loop (junk : Z -> EmployeeDetails) (employee_id : string) (n : nat) (i : Z)
  : M delete_result :=
  match n with
  | O => mret NotFound
  | S n' =>
      current_employee ← read_employee_details i (junk i) ;
      if strcmp_eq (Employee_ID current_employee) employee_id then
        write_employee_details i zero_employee ;;
        mret Deleted
      else delete_loop junk employee_id n' (i + 1)
  end.

Definition delete_employee_by_id (junk : Z -> EmployeeDetails) (employee_id : string)
  : M delete_result :=
  delete_loop junk employee_id (Z.to_nat MAX_ROWS) 0.

(** ** Start-up sequence *)

(** The table [employees] of [app_main]. *)
Definition employees : list EmployeeDetails :=
  [ mkEmployee "JohnDoe" "EMP001" "30" "SeniorEngineer" "50000";
    mkEmployee "JaneSmith" "EMP002" "35" "Manager" "70000";
    mkEmployee "Ravi" "EMP003" "28" "SeniorExecutive" "40000";
    mkEmployee "Raju" "EMP004" "29" "JuniorExecutive" "30000";
    mkEmployee "Vivek" "EMP005" "21" "CEO" "100000";
    mkEmployee "Monoj" "EMP006" "25" "MarketingExecutive" "40000";
    mkEmployee "Harish" "EMP007" "25" "JuniorEngineer" "40000";
    mkEmployee "Ankit" "EMP008" "26" "SalesExecutive" "30000";
    mkEmployee "Sai" "EMP009" "26" "Developer" "25000";
    mkEmployee "Eswar" "EMP010" "28" "TeamLead" "40000" ].

(** The state when [app_main] is entered: nothing mounted, the global
    counter at its initialiser 0. *)
Definition power_on : state := mkState false ∅ false [] 0.

(** [spiffs_mutex = xSemaphoreCreateMutex()]: a mutex that nobody holds. *)
Definition create_mutex : M unit := fun s => Some (tt, set_mutex false s).

(** [initialize_spiffs]: [flash] is what [esp_vfs_spiffs_register] finds,
    the files of the partition once mounted (none after a format), or
    [None] when the registration fails, which is only logged. *)
Definition initialize_spiffs (flash : option (gmap Z string)) : M unit := fun s =>
  match flash with
  | Some fs => Some (tt, mkState true fs (spiffs_mutex s) (trace s) (num_employees s))
  | None => Some (tt, s)
  end.

(** [for (i = 0; i < MAX_ROWS; i++) write_employee_details(i, &employees[i])]. *)
Fixpoint seed_loop (es : list EmployeeDetails) (i : Z) : M unit :=
  match es with
  | [] => mret tt
  | e :: es' => write_employee_details i e ;; seed_loop es' (i + 1)
  end.

(** [app_main]; the result is what the last two calls report: the outcome
    of the deletion and the record found for "EMP009". *)
Definition app_main (flash : option (gmap Z string)) (junk_delete junk_get : Z -> EmployeeDetails)
  : M (delete_result * EmployeeDetails) :=
  create_mutex ;;
  initialize_spiffs flash ;;
  seed_loop employees 0 ;;
  add_new_employee "New Employee 1" "EMP011" "25" "New Position 1" "60000" ;;
  add_new_employee "New Employee 2" "EMP012" "27" "New Position 2" "65000" ;;
  add_new_employee "New Employee 3" "EMP013" "29" "New Position 3" "70000" ;;
  add_new_employee "New Employee 4" "EMP014" "30" "New Position 4" "75000" ;;
  deleted ← delete_employee_by_id junk_delete "EMP006" ;
  let target_employee_id := "EMP009" in
  target_employee ← get_employee_details_by_id junk_get target_employee_id ;
  mret (deleted, target_employee).

(** ** Well-formed fields *)

(** No NUL and no newline among the characters. *)
Fixpoint plain (s : string) : bool :=
  match s with
  | EmptyString => true
  | String c s' => negb (Ascii.eqb c NUL) && negb (Ascii.eqb c LF) && plain s'
  end.

(** A field the line format can carry: a non-empty C string without
    newline that fits the buffer of [MAX_FIELD_SIZE] bytes with its
    terminator. *)
Definition field_ok (f : string) : bool :=
  negb (String.eqb f EmptyString)
  && Nat.leb (String.length f) (Nat.pred MAX_FIELD_SIZE)
  && plain f.

Definition record_ok (e : EmployeeDetails) : bool :=
  field_ok (Employee_Name e) && field_ok (Employee_ID e) && field_ok (Employee_Age e)
  && field_ok (Employee_Position e) && field_ok (Employee_Salary e).

(** ** What a slot reads as *)

(** The result of [fopen(.., "r")] on slot [i] in state [s]. *)
Definition open_r (s : state) (i : Z) : option string :=
  if mounted s then files s !! i else None.

(** The content of [*employee] after [read_employee_details(i, employee)]
    in state [s], when it held [employee] before. *)
Definition slot_view (s : state) (i : Z) (employee : EmployeeDetails) : EmployeeDetails :=
  match open_r s i with
  | None => employee
  | Some st => decode_into st employee
  end.

(** The state after slot operations that logged [evs] and left the files
    as [fs]. *)
Definition after (evs : list event) (fs : gmap Z string) (s : state) : state :=
  mkState (mounted s) fs false (trace s ++ evs) (num_employees s).

Definition write_events (i : Z) : list event := [EvTake; EvOpenW i; EvGive].
Definition read_events (i : Z) : list event := [EvTake; EvOpenR i; EvGive].

(** The events of reading [n] slots in ascending order from slot [i]. *)
Fixpoint scan_events (n : nat) (i : Z) : list event :=
  match n with
  | O => []
  | S n' => read_events i ++ scan_events n' (i + 1)
  end.

(** The files after [write_employee_details(i, e)]. *)
Definition written (s : state) (i : Z) (e : EmployeeDetails) : gmap Z string :=
  if mounted s then <[i := encode e]> (files s) else files s.

(** The lowest index in [i, i + n) that satisfies [p]. *)
Fixpoint first_match (p : Z -> bool) (n : nat) (i : Z) : option Z :=
  match n with
  | O => None
  | S n' => if p i then Some i else first_match p n' (i + 1)
  end.

(** The test of the two scans: does slot [i] read with identifier [id]? *)
Definition id_matches (junk : Z -> EmployeeDetails) (id : string) (s : state) (i : Z) : bool :=
  strcmp_eq (Employee_ID (slot_view s i (junk i))) id.

(** The number of slots read by a scan from [i] that stops at [k]. *)
Definition scan_len (i k : Z) : nat := S (Z.to_nat (k - i)).

(** The record slot [i] holds for a reader, when its file opens: the
    decoded record, all-zero when the decoding fails. *)
Definition slot_record (s : state) (i : Z) : EmployeeDetails :=
  slot_view s i zero_employee.

(** The partition is mounted and the files of slots [0 .. n - 1] exist. *)
Definition slots_present (s : state) (n : Z) : Prop :=
  mounted s = true /\ forall j, 0 <= j < n -> is_Some (files s !! j).

(** The operations a task can run on the store. A scan carries the
    content of its uninitialised local, a read the content of the record
    it is handed. *)
Inductive table_op : Type :=
  | OpInsert (name id age position salary : string)
  | OpFind (junk : Z -> EmployeeDetails) (id : string)
  | OpDelete (junk : Z -> EmployeeDetails) (id : string)
  | OpWriteSlot (i : Z) (r : EmployeeDetails)
  | OpReadSlot (i : Z) (out : EmployeeDetails).

Definition run_op (op : table_op) : M unit :=
  match op with
  | OpInsert name id age position salary =>
      add_new_employee name id age position salary ;; mret tt
  | OpFind junk id => get_employee_details_by_id junk id ;; mret tt
  | OpDelete junk id => delete_employee_by_id junk id ;; mret tt
  | OpWriteSlot i r => write_employee_details i r
  | OpReadSlot i out => read_employee_details i out ;; mret tt
  end.

Fixpoint run_ops (ops : list table_op) : M unit :=
  match ops with
  | [] => mret tt
  | op :: ops' => run_op op ;; run_ops ops'
  end.

Definition is_insert (op : table_op) : bool :=
  match op with
  | OpInsert _ _ _ _ _ => true
  | _ => false
  end.

(** A local that happens to hold zero bytes. *)
Definition zeroed_stack : Z -> EmployeeDetails := fun _ => zero_employee.

(** A mounted partition holding the ten records of [employees], as the
    first loop of [app_main] leaves it; the counter is still 0. *)
Definition seeded : state :=
  match seed_loop employees 0 (mkState true ∅ false [] 0) with
  | Some (_, s) => s
  | None => power_on
  end.

(** The files after the seeding loop of [app_main] over the records [es],
    from slot [i], on a mounted partition holding [fs]. *)
Fixpoint write_all (es : list EmployeeDetails) (i : Z) (fs : gmap Z string) : gmap Z string :=
  match es with
  | [] => fs
  | e :: es' => write_all es' (i + 1) (<[i := encode e]> fs)
  end.

(** ** Further notions used by the properties of the whole program *)

(** What is left of a string after its first [n] characters. *)
Fixpoint str_drop (n : nat) (s : string) : string :=
  match n, s with
  | S n', String _ s' => str_drop n' s'
  | _, _ => s
  end.

(** A string that a field array of [MAX_FIELD_SIZE] bytes holds with its
    terminator, and that has no newline in it. *)
Definition fits_buffer (f : string) : bool :=
  Nat.leb (String.length f) (Nat.pred MAX_FIELD_SIZE) && plain f.

Definition record_fits (e : EmployeeDetails) : bool :=
  fits_buffer (Employee_Name e) && fits_buffer (Employee_ID e)
  && fits_buffer (Employee_Age e) && fits_buffer (Employee_Position e)
  && fits_buffer (Employee_Salary e).

(** The lock discipline read off a trace: from the mutex state [held],
    the state after the events, or [None] when a take finds the mutex
    held, a give finds it free, or a file is opened without the mutex. *)
Fixpoint locked_io (held : bool) (evs : list event) : option bool :=
  match evs with
  | [] => Some held
  | EvTake :: evs' => if held then None else locked_io true evs'
  | EvGive :: evs' => if held then locked_io false evs' else None
  | EvOpenW _ :: evs' => if held then locked_io true evs' else None
  | EvOpenR _ :: evs' => if held then locked_io true evs' else None
  end.

(** * Properties *)

(** ** C strings and the codec *)

Lemma plain_c_str (s : string) : plain s = true -> c_str s = s.
Proof.
  induction s as [|c s IH]; simpl; [reflexivity|].
  intros H. apply andb_prop in H as [H Hs]. apply andb_prop in H as [Hn _].
  apply negb_true_iff in Hn. rewrite Hn, IH by assumption. reflexivity.
Qed.

Lemma c_str_idem (s : string) : c_str (c_str s) = c_str s.
Proof.
  induction s as [|c s IH]; simpl; [reflexivity|].
  destruct (Ascii.eqb c NUL) eqn:E; simpl; [reflexivity|].
  rewrite E, IH. reflexivity.
Qed.

Lemma str_take_length (n : nat) (s : string) : (String.length (str_take n s) <= n)%nat.
Proof.
  revert s; induction n as [|n IH]; intros [|c s]; simpl; try lia.
  specialize (IH s). lia.
Qed.

Lemma str_take_all (n : nat) (s : string) :
  (String.length s <= n)%nat -> str_take n s = s.
Proof.
  revert s; induction n as [|n IH]; intros [|c s]; simpl; intros H;
    try reflexivity; try lia.
  rewrite IH by lia. reflexivity.
Qed.

Lemma scan_set_line (w : nat) (f rest : string) :
  plain f = true -> (String.length f <= w)%nat ->
  scan_set w (String.append f (String LF rest)) = (f, String LF rest).
Proof.
  revert w; induction f as [|c f IH]; intros w Hp Hl.
  - destruct w; reflexivity.
  - destruct w as [|w]; simpl in Hl; [lia|].
    simpl in Hp. apply andb_prop in Hp as [Hc Hp]. apply andb_prop in Hc as [_ Hlf].
    apply negb_true_iff in Hlf. simpl. rewrite Hlf, (IH w Hp) by lia. reflexivity.
Qed.

Lemma field_ok_inv (f : string) :
  field_ok f = true ->
  f <> EmptyString /\ (String.length f <= Nat.pred MAX_FIELD_SIZE)%nat /\ plain f = true.
Proof.
  unfold field_ok. intros H.
  apply andb_prop in H as [H Hp]. apply andb_prop in H as [Hne Hl].
  apply negb_true_iff, String.eqb_neq in Hne. apply Nat.leb_le in Hl. auto.
Qed.

(** A newline first, or the end of the file: the call fails. *)
Lemma fscanf_field_newline (rest : string) : fscanf_field (String LF rest) = None.
Proof. reflexivity. Qed.

Lemma fscanf_field_eof : fscanf_field EmptyString = None.
Proof. reflexivity. Qed.

(** A well-formed line is read back whole. *)
Lemma fscanf_field_line (f rest : string) :
  field_ok f = true -> fscanf_field (line f rest) = Some (f, rest).
Proof.
  intros H. apply field_ok_inv in H as (Hne & Hl & Hp).
  unfold fscanf_field, line. rewrite (plain_c_str f Hp), (scan_set_line _ f rest Hp Hl).
  destruct f as [|c f]; [congruence|]. rewrite (plain_c_str _ Hp). reflexivity.
Qed.

(** Once the file is open, the record left in [*employee] does not depend
    on what it held: it is all-zero or made of five scanned fields. *)
Lemma decode_into_indep (st : string) (e1 e2 : EmployeeDetails) :
  decode_into st e1 = decode_into st e2.
Proof.
  unfold decode_into.
  repeat (match goal with
          | |- context [match fscanf_field ?x with _ => _ end] =>
              destruct (fscanf_field x) as [[? ?]|]
          end; try reflexivity).
Qed.

Lemma decode_encode (r out : EmployeeDetails) :
  record_ok r = true -> decode_into (encode r) out = r.
Proof.
  unfold record_ok. intros H.
  apply andb_prop in H as [H H5]. apply andb_prop in H as [H H4].
  apply andb_prop in H as [H H3]. apply andb_prop in H as [H1 H2].
  destruct r as [n i a p sa]; simpl in *.
  unfold decode_into, encode; simpl.
  rewrite (fscanf_field_line n _ H1), (fscanf_field_line i _ H2),
    (fscanf_field_line a _ H3), (fscanf_field_line p _ H4),
    (fscanf_field_line sa _ H5).
  reflexivity.
Qed.

Lemma decode_encode_zero (out : EmployeeDetails) :
  decode_into (encode zero_employee) out = zero_employee.
Proof. reflexivity. Qed.

(** ** The first match of a scan *)

Section FirstMatch.

Variable p : Z -> bool.

Lemma first_match_Some (n : nat) (i k : Z) :
  first_match p n i = Some k ->
  i <= k < i + Z.of_nat n /\ p k = true /\ (forall j, i <= j < k -> p j = false).
Proof.
  revert i; induction n as [|n IH]; intros i; simpl; [discriminate|].
  destruct (p i) eqn:E.
  - intros [= <-]. repeat split; try lia. assumption.
  - intros H. apply IH in H as (Hk & Hp & Hlt). repeat split; try lia; try assumption.
    intros j Hj. destruct (decide (j = i)) as [->|Hne]; [assumption|]. apply Hlt. lia.
Qed.

Lemma first_match_None (n : nat) (i : Z) :
  first_match p n i = None -> forall j, i <= j < i + Z.of_nat n -> p j = false.
Proof.
  revert i; induction n as [|n IH]; intros i; simpl; [intros _ j Hj; lia|].
  destruct (p i) eqn:E; [discriminate|].
  intros H j Hj. destruct (decide (j = i)) as [->|Hne]; [assumption|].
  apply (IH (i + 1) H). lia.
Qed.

Lemma first_match_found (n : nat) (i k : Z) :
  i <= k < i + Z.of_nat n -> p k = true -> (forall j, i <= j < k -> p j = false) ->
  first_match p n i = Some k.
Proof.
  intros Hk Hp Hlt. destruct (first_match p n i) as [k'|] eqn:E.
  - apply first_match_Some in E as (Hk' & Hp' & Hlt').
    destruct (Z.lt_trichotomy k k') as [Hc|[->|Hc]]; [|reflexivity|].
    + rewrite Hlt' in Hp by lia. discriminate.
    + rewrite Hlt in Hp' by lia. discriminate.
  - rewrite (first_match_None n i E k Hk) in Hp. discriminate.
Qed.

Lemma first_match_absent (n : nat) (i : Z) :
  (forall j, i <= j < i + Z.of_nat n -> p j = false) -> first_match p n i = None.
Proof.
  intros H. destruct (first_match p n i) as [k|] eqn:E; [|reflexivity].
  apply first_match_Some in E as (Hk & Hp & _). rewrite H in Hp by lia. discriminate.
Qed.

End FirstMatch.

(** ** Slot store: what a call returns *)

Lemma after_after (e1 e2 : list event) (f1 f2 : gmap Z string) (s : state) :
  after e2 f2 (after e1 f1 s) = after (e1 ++ e2) f2 s.
Proof. unfold after; simpl. rewrite <- app_assoc. reflexivity. Qed.

Lemma after_nil (s : state) : spiffs_mutex s = false -> after [] (files s) s = s.
Proof. destruct s; simpl; intros ->. unfold after; simpl. rewrite app_nil_r. reflexivity. Qed.

(** From a free mutex, a write returns; the slot holds the five lines of
    the record when the file opens, and nothing else changes. *)
Lemma write_employee_details_spec (i : Z) (e : EmployeeDetails) (s : state) :
  spiffs_mutex s = false ->
  write_employee_details i e s = Some (tt, after (write_events i) (written s i e) s).
Proof.
  intros Hm. unfold write_employee_details, mbind, M_bind, lock_spiffs. rewrite Hm.
  unfold fopen_w, written, after. cbn [mounted log_event set_mutex files trace spiffs_mutex num_employees].
  destruct (mounted s) eqn:Em; cbn -[encode].
  - rewrite lookup_insert_eq, insert_insert_eq.
    unfold unlock_spiffs, set_files, log_event, set_mutex, write_events; cbn -[encode].
    rewrite Em, <- !app_assoc. reflexivity.
  - unfold unlock_spiffs, set_files, log_event, set_mutex, write_events; cbn -[encode].
    rewrite Em, <- !app_assoc. reflexivity.
Qed.

(** From a free mutex, a read returns; it leaves in [*employee] what
    [slot_view] says and changes no file. *)
Lemma read_employee_details_spec (i : Z) (out : EmployeeDetails) (s : state) :
  spiffs_mutex s = false ->
  read_employee_details i out s = Some (slot_view s i out, after (read_events i) (files s) s).
Proof.
  intros Hm. unfold read_employee_details, mbind, M_bind, lock_spiffs. rewrite Hm.
  unfold fopen_r, slot_view, open_r, after.
  cbn [mounted log_event set_mutex files trace spiffs_mutex num_employees].
  destruct (if mounted s then files s !! i else None);
    unfold unlock_spiffs, set_files, log_event, set_mutex, read_events; cbn;
    rewrite <- !app_assoc; reflexivity.
Qed.

(** A slot whose file opens reads the same whatever the local held. *)
Lemma slot_view_open (s : state) (i : Z) (st : string) (out : EmployeeDetails) :
  open_r s i = Some st -> slot_view s i out = decode_into st zero_employee.
Proof. unfold slot_view. intros ->. apply decode_into_indep. Qed.

Lemma slot_view_closed (s : state) (i : Z) (out : EmployeeDetails) :
  open_r s i = None -> slot_view s i out = out.
Proof. unfold slot_view. intros ->. reflexivity. Qed.

(** ** The two scans *)

Lemma scan_len_next (i k : Z) : i + 1 <= k -> scan_len i k = S (scan_len (i + 1) k).
Proof. unfold scan_len. intros H. f_equal. lia. Qed.

Lemma get_loop_spec (junk : Z -> EmployeeDetails) (id : string) (n : nat) (i : Z) (s : state) :
  spiffs_mutex s = false ->
  get_loop junk id n i s =
  Some (match first_match (id_matches junk id s) n i with
        | Some k => (slot_view s k (junk k), after (scan_events (scan_len i k) i) (files s) s)
        | None => (zero_employee, after (scan_events n i) (files s) s)
        end).
Proof.
  revert i s; induction n as [|n IH]; intros i s Hm.
  - simpl. unfold mret, M_ret. rewrite (after_nil s Hm). reflexivity.
  - simpl get_loop. unfold mbind, M_bind at 1.
    rewrite (read_employee_details_spec i (junk i) s Hm).
    change (strcmp_eq (Employee_ID (slot_view s i (junk i))) id) with (id_matches junk id s i).
    simpl first_match. destruct (id_matches junk id s i) eqn:E.
    + unfold scan_len. rewrite Z.sub_diag. reflexivity.
    + rewrite IH by reflexivity.
      change (id_matches junk id (after (read_events i) (files s) s))
        with (id_matches junk id s).
      destruct (first_match (id_matches junk id s) n (i + 1)) as [k|] eqn:F.
      * apply first_match_Some in F as (Hk & _ & _).
        rewrite (scan_len_next i k) by lia. rewrite after_after. reflexivity.
      * rewrite after_after. reflexivity.
Qed.

Lemma delete_loop_spec (junk : Z -> EmployeeDetails) (id : string) (n : nat) (i : Z) (s : state) :
  spiffs_mutex s = false ->
  delete_loop junk id n i s =
  Some (match first_match (id_matches junk id s) n i with
        | Some k => (Deleted,
                     after (scan_events (scan_len i k) i ++ write_events k)
                           (written s k zero_employee) s)
        | None => (NotFound, after (scan_events n i) (files s) s)
        end).
Proof.
  revert i s; induction n as [|n IH]; intros i s Hm.
  - simpl. unfold mret, M_ret. rewrite (after_nil s Hm). reflexivity.
  - simpl delete_loop. unfold mbind, M_bind at 1.
    rewrite (read_employee_details_spec i (junk i) s Hm).
    change (strcmp_eq (Employee_ID (slot_view s i (junk i))) id) with (id_matches junk id s i).
    simpl first_match. destruct (id_matches junk id s i) eqn:E.
    + unfold mbind, M_bind. rewrite write_employee_details_spec by reflexivity.
      unfold mret, M_ret. rewrite after_after.
      unfold scan_len. rewrite Z.sub_diag. reflexivity.
    + rewrite IH by reflexivity.
      change (id_matches junk id (after (read_events i) (files s) s))
        with (id_matches junk id s).
      destruct (first_match (id_matches junk id s) n (i + 1)) as [k|] eqn:F.
      * apply first_match_Some in F as (Hk & _ & _).
        rewrite (scan_len_next i k) by lia. rewrite after_after. reflexivity.
      * rewrite after_after. reflexivity.
Qed.

(** Insertion below the capacity, from a free mutex. *)
Lemma add_new_employee_spec (name id age position salary : string) (s : state) :
  spiffs_mutex s = false -> num_employees s < MAX_ROWS ->
  add_new_employee name id age position salary s =
  Some (Added,
        set_num (num_employees s + 1)
          (after (write_events (num_employees s))
             (written s (num_employees s) (new_employee name id age position salary)) s)).
Proof.
  intros Hm Hn. unfold add_new_employee, mbind, M_bind, load_num_employees.
  destruct (MAX_ROWS <=? num_employees s) eqn:E; [apply Z.leb_le in E; lia|].
  rewrite write_employee_details_spec by assumption. reflexivity.
Qed.

Lemma add_new_employee_full (name id age position salary : string) (s : state) :
  MAX_ROWS <= num_employees s ->
  add_new_employee name id age position salary s = Some (CapacityExceeded, s).
Proof.
  intros Hn. unfold add_new_employee, mbind, M_bind, load_num_employees.
  destruct (MAX_ROWS <=? num_employees s) eqn:E; [reflexivity|apply Z.leb_gt in E; lia].
Qed.

(** ** Claims on the slot store *)

(** The record left by the five [fscanf] calls is all-zero as soon as one
    of them fails, and is made of the five scanned strings otherwise; no
    other outcome exists. *)
Lemma decode_into_cases (st : string) (out : EmployeeDetails) :
  decode_into st out = zero_employee
  \/ exists v1 st1 v2 st2 v3 st3 v4 st4 v5 st5,
       fscanf_field st = Some (v1, st1) /\ fscanf_field st1 = Some (v2, st2)
       /\ fscanf_field st2 = Some (v3, st3) /\ fscanf_field st3 = Some (v4, st4)
       /\ fscanf_field st4 = Some (v5, st5)
       /\ decode_into st out = mkEmployee v1 v2 v3 v4 v5.
Proof.
  unfold decode_into.
  destruct (fscanf_field st) as [[v1 st1]|] eqn:E1; [|left; reflexivity].
  destruct (fscanf_field st1) as [[v2 st2]|] eqn:E2; [|left; reflexivity].
  destruct (fscanf_field st2) as [[v3 st3]|] eqn:E3; [|left; reflexivity].
  destruct (fscanf_field st3) as [[v4 st4]|] eqn:E4; [|left; reflexivity].
  destruct (fscanf_field st4) as [[v5 st5]|] eqn:E5; [|left; reflexivity].
  right. exists v1, st1, v2, st2, v3, st3, v4, st4, v5, st5. auto 10.
Qed.

(** C9. From a free mutex, every call of [write_employee_details] and of
    [read_employee_details] returns, and it runs as follows: the call
    first takes the mutex, so that [spiffs_mutex] is held in the state
    after [lock_spiffs]; it is still held after the [fopen], whether the
    file opens or not, and after the [fprintf]; the last step gives the
    mutex, which is free in the state the call returns. The trace shows
    one take, before the [fopen], and one give, after it, and nothing
    else. While the mutex is held, a second call does not get past
    [lock_spiffs]. *)
Theorem slot_operations_take_and_give_once
    (i : Z) (r out : EmployeeDetails) (s : state) :
  spiffs_mutex s = false ->
  (exists s1 ok s2 s3 s',
      lock_spiffs s = Some (tt, s1) /\ spiffs_mutex s1 = true
      /\ fopen_w i s1 = Some (ok, s2) /\ spiffs_mutex s2 = true
      /\ (if ok then fprintf_file i (encode r) s2 else Some (tt, s2)) = Some (tt, s3)
      /\ spiffs_mutex s3 = true
      /\ unlock_spiffs s3 = Some (tt, s') /\ spiffs_mutex s' = false
      /\ write_employee_details i r s = Some (tt, s')
      /\ trace s' = trace s ++ [EvTake; EvOpenW i; EvGive])
  /\ (exists s1 file s2 e s',
      lock_spiffs s = Some (tt, s1) /\ spiffs_mutex s1 = true
      /\ fopen_r i s1 = Some (file, s2) /\ spiffs_mutex s2 = true
      /\ unlock_spiffs s2 = Some (tt, s') /\ spiffs_mutex s' = false
      /\ read_employee_details i out s = Some (e, s')
      /\ trace s' = trace s ++ [EvTake; EvOpenR i; EvGive])
  /\ write_employee_details i r (set_mutex true s) = None
  /\ read_employee_details i out (set_mutex true s) = None.
Proof.
  intros Hm. destruct s as [mt fs mx tr n]. simpl in Hm. subst mx.
  split; [|split; [|split; reflexivity]].
  - destruct mt.
    + do 5 eexists. split; [reflexivity|]. split; [reflexivity|].
      split; [reflexivity|]. split; [reflexivity|]. split; [reflexivity|].
      split; [reflexivity|]. split; [reflexivity|]. split; [reflexivity|].
      split; [reflexivity|]. cbn. rewrite <- !app_assoc. reflexivity.
    + do 5 eexists. split; [reflexivity|]. split; [reflexivity|].
      split; [reflexivity|]. split; [reflexivity|]. split; [reflexivity|].
      split; [reflexivity|]. split; [reflexivity|]. split; [reflexivity|].
      split; [reflexivity|]. cbn. rewrite <- !app_assoc. reflexivity.
  - eexists _, _, _,
      (match (if mt then fs !! i else None) with
       | Some st => decode_into st out
       | None => out
       end), _.
    split; [reflexivity|]. split; [reflexivity|].
    split; [reflexivity|]. split; [reflexivity|]. split; [reflexivity|].
    split; [reflexivity|].
    split; [unfold read_employee_details, mbind, M_bind; cbn;
            destruct (if mt then fs !! i else None); reflexivity|].
    cbn. rewrite <- !app_assoc. reflexivity.
Qed.

(** The early-return paths: nothing is mounted, both [fopen] calls fail. *)
Lemma slot_operations_take_and_give_once_witness :
  spiffs_mutex power_on = false
  /\ (exists s', write_employee_details 3 zero_employee power_on = Some (tt, s')
        /\ trace s' = trace power_on ++ [EvTake; EvOpenW 3; EvGive]
        /\ spiffs_mutex s' = false)
  /\ (exists e s', read_employee_details 3 zero_employee power_on = Some (e, s')
        /\ trace s' = trace power_on ++ [EvTake; EvOpenR 3; EvGive]
        /\ spiffs_mutex s' = false)
  /\ write_employee_details 3 zero_employee (set_mutex true power_on) = None.
Proof.
  split; [reflexivity|].
  destruct (slot_operations_take_and_give_once 3 zero_employee zero_employee power_on eq_refl)
    as ((s1 & ok & s2 & s3 & s' & _ & _ & _ & _ & _ & _ & _ & Hf & Hw & Ht)
        & (t1 & file & t2 & e & t' & _ & _ & _ & _ & _ & Hf' & Hr & Ht')
        & Hblock & _).
  split; [exists s'; auto|]. split; [exists e, t'; auto|]. exact Hblock.
Defined.

(** C3, at an input where the code departs from it. Slot 0 of a freshly
    formatted partition has no file: [fopen] fails and the call returns
    with [*employee] as it was, here a record that is not all-zero. On a
    file that stops after two lines the record is cleared, as claimed. *)
Theorem read_employee_details_open_failure_keeps_output :
  let fresh := mkState true ∅ false [] 0 in
  let short := mkState true {[ 0 := "Bob
EMP1
" ]} false [] 0 in
  let before := mkEmployee "X" "EMP001" "1" "Y" "2" in
  (exists s', read_employee_details 0 before fresh = Some (before, s'))
  /\ before <> zero_employee
  /\ (exists s', read_employee_details 0 before short = Some (zero_employee, s')).
Proof.
  cbv zeta. split; [eexists; vm_compute; reflexivity|]. split; [discriminate|].
  eexists; vm_compute; reflexivity.
Qed.

(** ** Claims on the codec round trip *)

(** C1 as stated fails: a record with one empty field is read back
    all-zero, a newline inside a field shifts the fields that follow, and
    on a partition that is not mounted nothing is written. *)
Lemma write_then_read_not_identity :
  let disk := mkState true ∅ false [] 0 in
  let r1 := mkEmployee "Bob" "EMP1" EmptyString "Eng" "1" in
  let r2 := mkEmployee "Bob
Ray" "EMP1" "30" "Eng" "1" in
  let r3 := mkEmployee "Bob" "EMP1" "30" "Eng" "1" in
  (exists s1 e s2, write_employee_details 0 r1 disk = Some (tt, s1)
      /\ read_employee_details 0 r3 s1 = Some (e, s2)
      /\ e = zero_employee /\ e <> r1)
  /\ (exists s1 e s2, write_employee_details 0 r2 disk = Some (tt, s1)
      /\ read_employee_details 0 r3 s1 = Some (e, s2)
      /\ e = mkEmployee "Bob" "Ray" "EMP1" "30" "Eng" /\ e <> r2)
  /\ (exists s1 e s2, write_employee_details 0 r3 power_on = Some (tt, s1)
      /\ read_employee_details 0 zero_employee s1 = Some (e, s2)
      /\ e = zero_employee /\ e <> r3).
Proof.
  cbv zeta. split; [|split].
  - do 3 eexists. split; [vm_compute; reflexivity|].
    split; [vm_compute; reflexivity|]. split; [reflexivity|discriminate].
  - do 3 eexists. split; [vm_compute; reflexivity|].
    split; [vm_compute; reflexivity|]. split; [reflexivity|discriminate].
  - do 3 eexists. split; [vm_compute; reflexivity|].
    split; [vm_compute; reflexivity|]. split; [reflexivity|discriminate].
Qed.

(** C1, amended. On a mounted partition and from a free mutex, for every
    slot index and every record whose five fields are non-empty C strings
    without newline of at most 19 characters, a read right after the
    write returns that record, whatever the output record held; decoding
    the five lines of such a record gives the record back; and the
    all-zero record is read back all-zero. *)
Theorem write_then_read_roundtrip (i : Z) (r out : EmployeeDetails) (s : state) :
  spiffs_mutex s = false -> mounted s = true ->
  (record_ok r = true ->
     decode_into (encode r) out = r
     /\ exists s1 s2, write_employee_details i r s = Some (tt, s1)
          /\ read_employee_details i out s1 = Some (r, s2))
  /\ (exists s1 s2, write_employee_details i zero_employee s = Some (tt, s1)
          /\ read_employee_details i out s1 = Some (zero_employee, s2)).
Proof.
  intros Hm Hmt.
  assert (Hrw : forall e, exists s1 s2,
             write_employee_details i e s = Some (tt, s1)
             /\ read_employee_details i out s1 = Some (decode_into (encode e) out, s2)).
  { intros e. do 2 eexists.
    rewrite write_employee_details_spec by assumption. split; [reflexivity|].
    rewrite read_employee_details_spec by reflexivity.
    unfold slot_view, open_r, written. cbn [mounted files after]. rewrite Hmt.
    rewrite lookup_insert_eq. reflexivity. }
  split.
  - intros Hok. split; [apply decode_encode; assumption|].
    destruct (Hrw r) as (s1 & s2 & Hw & Hr). exists s1, s2.
    rewrite (decode_encode r out Hok) in Hr. auto.
  - destruct (Hrw zero_employee) as (s1 & s2 & Hw & Hr). exists s1, s2. auto.
Qed.

Lemma write_then_read_roundtrip_witness :
  let s := mkState true ∅ false [] 0 in
  let r := mkEmployee "JohnDoe" "EMP001" "30" "SeniorEngineer" "50000" in
  spiffs_mutex s = false /\ mounted s = true /\ record_ok r = true
  /\ exists s1 s2, write_employee_details 7 r s = Some (tt, s1)
       /\ read_employee_details 7 zero_employee s1 = Some (r, s2).
Proof.
  intros s r. split; [reflexivity|]. split; [reflexivity|]. split; [reflexivity|].
  exact (proj2 (proj1 (write_then_read_roundtrip 7 r zero_employee s eq_refl eq_refl)
                  eq_refl)).
Defined.

(** ** Claims on insertion at capacity and on the counter *)

(** C4. With the counter at [MAX_ROWS] or above, [add_new_employee]
    reports that the table is full and returns in the state it was called
    in: no file, no counter and no mutex is touched, and the trace shows
    that no [fopen] was attempted. *)
Theorem add_new_employee_full_changes_nothing
    (name id age position salary : string) (s : state) :
  MAX_ROWS <= num_employees s ->
  add_new_employee name id age position salary s = Some (CapacityExceeded, s).
Proof. apply add_new_employee_full. Qed.

Lemma add_new_employee_full_changes_nothing_witness :
  let s := mkState true ∅ false [] 10 in
  MAX_ROWS <= num_employees s
  /\ add_new_employee "New Employee 1" "EMP011" "25" "New Position 1" "60000" s
     = Some (CapacityExceeded, s).
Proof.
  intros s. split; [discriminate|].
  exact (add_new_employee_full_changes_nothing
           "New Employee 1" "EMP011" "25" "New Position 1" "60000" s
           ltac:(discriminate)).
Defined.

(** The effect of one operation on the counter, from a free mutex. *)
Lemma run_op_counter (op : table_op) (s : state) :
  spiffs_mutex s = false ->
  exists s', run_op op s = Some (tt, s')
    /\ spiffs_mutex s' = false
    /\ num_employees s' =
         (if is_insert op && (num_employees s <? MAX_ROWS)
          then num_employees s + 1 else num_employees s).
Proof.
  intros Hm. destruct op as [name id age position salary|junk id|junk id|i r|i out];
    unfold run_op, mbind, M_bind.
  - simpl is_insert. destruct (num_employees s <? MAX_ROWS) eqn:E.
    + apply Z.ltb_lt in E. rewrite add_new_employee_spec by assumption.
      eexists. split; [reflexivity|]. split; reflexivity.
    + apply Z.ltb_ge in E. rewrite add_new_employee_full by assumption.
      eexists. split; [reflexivity|]. split; [assumption|reflexivity].
  - unfold get_employee_details_by_id. rewrite get_loop_spec by assumption.
    destruct (first_match _ _ _); eexists; (split; [reflexivity|]); split; reflexivity.
  - unfold delete_employee_by_id. rewrite delete_loop_spec by assumption.
    destruct (first_match _ _ _); eexists; (split; [reflexivity|]); split; reflexivity.
  - rewrite write_employee_details_spec by assumption.
    eexists. split; [reflexivity|]. split; reflexivity.
  - rewrite read_employee_details_spec by assumption.
    eexists. split; [reflexivity|]. split; reflexivity.
Qed.

(** C8. From a free mutex and a counter within [0, MAX_ROWS], every
    operation returns with the counter still within these bounds and not
    smaller than before; only an insertion changes it, by exactly one and
    only when it was below [MAX_ROWS]; and the same bounds hold after any
    sequence of operations, in particular after any sequence run from
    the initial value 0. *)
Theorem num_employees_bounded_and_monotone (s : state) :
  spiffs_mutex s = false -> 0 <= num_employees s <= MAX_ROWS ->
  (forall op, exists s', run_op op s = Some (tt, s')
      /\ 0 <= num_employees s' <= MAX_ROWS
      /\ num_employees s <= num_employees s'
      /\ (num_employees s' <> num_employees s ->
            is_insert op = true /\ num_employees s < MAX_ROWS
            /\ num_employees s' = num_employees s + 1)
      /\ (is_insert op = true -> num_employees s < MAX_ROWS ->
            num_employees s' = num_employees s + 1))
  /\ (forall ops, exists s', run_ops ops s = Some (tt, s')
      /\ 0 <= num_employees s' <= MAX_ROWS
      /\ num_employees s <= num_employees s').
Proof.
  intros Hm Hn. split.
  - intros op. destruct (run_op_counter op s Hm) as (s' & Hr & _ & Hc).
    exists s'. split; [assumption|]. unfold MAX_ROWS in *.
    destruct (is_insert op); simpl in Hc;
      [destruct (num_employees s <? 10) eqn:E;
       [apply Z.ltb_lt in E|apply Z.ltb_ge in E]|];
      repeat split; try lia; try (intros; lia); try (intros; discriminate).
  - intros ops. revert s Hm Hn. induction ops as [|op ops IH]; intros s Hm Hn.
    + exists s. split; [reflexivity|]. lia.
    + destruct (run_op_counter op s Hm) as (s1 & Hr & Hm1 & Hc).
      assert (Hb : 0 <= num_employees s1 <= MAX_ROWS /\ num_employees s <= num_employees s1).
      { unfold MAX_ROWS in *. destruct (is_insert op); simpl in Hc;
          [destruct (num_employees s <? 10) eqn:E;
           [apply Z.ltb_lt in E|apply Z.ltb_ge in E]|]; lia. }
      destruct (IH s1 Hm1 (proj1 Hb)) as (s' & Hr' & Hb' & Hle).
      exists s'. simpl run_ops. unfold mbind, M_bind. rewrite Hr.
      split; [exact Hr'|]. lia.
Qed.

Lemma num_employees_bounded_and_monotone_witness :
  spiffs_mutex power_on = false /\ 0 <= num_employees power_on <= MAX_ROWS
  /\ exists s', run_ops [OpInsert "A" "K1" "1" "P" "2"; OpDelete zeroed_stack "K1";
                         OpFind zeroed_stack "K1"] power_on = Some (tt, s')
       /\ 0 <= num_employees s' <= MAX_ROWS
       /\ num_employees power_on <= num_employees s'.
Proof.
  split; [reflexivity|]. split; [split; discriminate|].
  assert (Hn : 0 <= num_employees power_on <= MAX_ROWS) by (split; discriminate).
  destruct (num_employees_bounded_and_monotone power_on eq_refl Hn) as [_ H].
  exact (H [OpInsert "A" "K1" "1" "P" "2"; OpDelete zeroed_stack "K1";
            OpFind zeroed_stack "K1"]).
Defined.

(** ** Claims on the scan of [get_employee_details_by_id] *)

Lemma strcmp_eq_true (a b : string) : strcmp_eq a b = true <-> c_str a = c_str b.
Proof. unfold strcmp_eq. apply String.eqb_eq. Qed.

Lemma strcmp_eq_false (a b : string) : strcmp_eq a b = false <-> c_str a <> c_str b.
Proof. unfold strcmp_eq. apply String.eqb_neq. Qed.

(** The scan of [get_employee_details_by_id] in terms of what each call
    of [read_employee_details] delivers: from a free mutex it returns the
    record delivered for the lowest slot in [0, MAX_ROWS) whose delivered
    identifier is the same C string as the key, having read no slot
    after it, and the all-zero record after reading all [MAX_ROWS] slots
    when none is; it changes no file and does not depend on
    [num_employees]. For a slot whose file opens, what is delivered is
    the decoded record; for a slot whose file does not open it is what
    the local held. *)
Theorem get_employee_details_by_id_lowest_match
    (junk : Z -> EmployeeDetails) (id : string) (s : state) :
  spiffs_mutex s = false ->
  exists r s',
    get_employee_details_by_id junk id s = Some (r, s')
    /\ files s' = files s
    /\ ((exists k, 0 <= k < MAX_ROWS
           /\ c_str (Employee_ID (slot_view s k (junk k))) = c_str id
           /\ (forall j, 0 <= j < k ->
                 c_str (Employee_ID (slot_view s j (junk j))) <> c_str id)
           /\ r = slot_view s k (junk k)
           /\ trace s' = trace s ++ scan_events (S (Z.to_nat k)) 0)
        \/ ((forall j, 0 <= j < MAX_ROWS ->
                 c_str (Employee_ID (slot_view s j (junk j))) <> c_str id)
            /\ r = zero_employee
            /\ trace s' = trace s ++ scan_events (Z.to_nat MAX_ROWS) 0))
    /\ (forall k st, open_r s k = Some st ->
          slot_view s k (junk k) = decode_into st zero_employee)
    /\ (forall n, exists s'',
          get_employee_details_by_id junk id (set_num n s) = Some (r, s'')).
Proof.
  intros Hm. unfold get_employee_details_by_id.
  assert (Hn : forall n, get_loop junk id (Z.to_nat MAX_ROWS) 0 (set_num n s) =
             Some (match first_match (id_matches junk id s) (Z.to_nat MAX_ROWS) 0 with
                   | Some k => (slot_view s k (junk k),
                                after (scan_events (scan_len 0 k) 0) (files s) (set_num n s))
                   | None => (zero_employee,
                              after (scan_events (Z.to_nat MAX_ROWS) 0) (files s) (set_num n s))
                   end)).
  { intros n. rewrite get_loop_spec by exact Hm. reflexivity. }
  rewrite get_loop_spec by assumption.
  destruct (first_match (id_matches junk id s) (Z.to_nat MAX_ROWS) 0) as [k|] eqn:F.
  - apply first_match_Some in F as (Hk & Hp & Hlt).
    do 2 eexists. split; [reflexivity|]. split; [reflexivity|]. split; [|split].
    + left. exists k. split; [unfold MAX_ROWS in *; lia|].
      split; [apply strcmp_eq_true; exact Hp|].
      split; [intros j Hj; apply strcmp_eq_false; apply Hlt; exact Hj|].
      split; [reflexivity|]. unfold scan_len. rewrite Z.sub_0_r. reflexivity.
    + intros k' st Ho. apply slot_view_open. exact Ho.
    + intros n. rewrite Hn. eexists. reflexivity.
  - pose proof (first_match_None _ _ _ F) as Hnone.
    do 2 eexists. split; [reflexivity|]. split; [reflexivity|]. split; [|split].
    + right. split; [|split; reflexivity].
      intros j Hj. apply strcmp_eq_false. apply Hnone. unfold MAX_ROWS in *. lia.
    + intros k' st Ho. apply slot_view_open. exact Ho.
    + intros n. rewrite Hn. eexists. reflexivity.
Qed.

Lemma get_employee_details_by_id_lowest_match_witness :
  let s := mkState true {[ 0 := encode (mkEmployee "Sai" "EMP009" "26" "Developer" "25000") ]}
             false [] 0 in
  spiffs_mutex s = false
  /\ exists r s', get_employee_details_by_id zeroed_stack "EMP009" s = Some (r, s')
       /\ files s' = files s.
Proof.
  intros s. split; [reflexivity|].
  destruct (get_employee_details_by_id_lowest_match zeroed_stack "EMP009" s eq_refl)
    as (r & s' & Hg & Hf & _).
  exists r, s'. split; assumption.
Defined.

(** C6, at an input where the code departs from it. On a freshly
    formatted partition no slot file exists, so no slot holds the key
    "K1"; but each [fopen] fails, [read_employee_details] returns without
    writing the local (the defect of C3), and the [strcmp] is made on what
    the local held. With a local that holds a record of identifier "K1"
    the lookup returns that stale record after a single read, where the
    claim says the all-zero record after all [MAX_ROWS] slots. *)
Theorem get_employee_details_by_id_stale_match :
  let fresh := mkState true ∅ false [] 0 in
  let stale := mkEmployee "JohnDoe" "K1" "30" "SeniorEngineer" "50000" in
  (forall j, 0 <= j < MAX_ROWS -> files fresh !! j = None)
  /\ exists s', get_employee_details_by_id (fun _ => stale) "K1" fresh = Some (stale, s')
       /\ trace s' = [EvTake; EvOpenR 0; EvGive]
       /\ stale <> zero_employee.
Proof.
  cbv zeta. split; [intros j _; apply lookup_empty|].
  eexists. split; [vm_compute; reflexivity|]. split; [reflexivity|]. intros [=].
Qed.

(** ** Claims on the empty key *)





(** ** Slots whose file exists, and slots just written *)

Lemma slot_view_present (s : state) (j : Z) (out : EmployeeDetails) :
  mounted s = true -> is_Some (files s !! j) -> slot_view s j out = slot_record s j.
Proof.
  intros Hmt [st Hst]. unfold slot_record.
  assert (Ho : open_r s j = Some st) by (unfold open_r; rewrite Hmt; exact Hst).
  rewrite (slot_view_open s j st out Ho), (slot_view_open s j st zero_employee Ho).
  reflexivity.
Qed.

Lemma id_matches_present (junk : Z -> EmployeeDetails) (id : string) (s : state) (n j : Z) :
  slots_present s n -> 0 <= j < n ->
  id_matches junk id s j = strcmp_eq (Employee_ID (slot_record s j)) id.
Proof.
  intros [Hmt Hf] Hj. unfold id_matches.
  rewrite (slot_view_present s j (junk j) Hmt (Hf j Hj)). reflexivity.
Qed.

Lemma slot_view_written_eq (evs : list event) (s : state) (k : Z) (e out : EmployeeDetails) :
  mounted s = true ->
  slot_view (after evs (written s k e) s) k out = decode_into (encode e) out.
Proof.
  intros Hmt. unfold slot_view, open_r, written, after. cbn [mounted files].
  rewrite Hmt, lookup_insert_eq. reflexivity.
Qed.

Lemma slot_view_written_ne (evs : list event) (s : state) (k j : Z) (e out : EmployeeDetails) :
  j <> k -> slot_view (after evs (written s k e) s) j out = slot_view s j out.
Proof.
  intros Hne. unfold slot_view, open_r, written, after. cbn [mounted files].
  destruct (mounted s); [|reflexivity]. rewrite lookup_insert_ne by congruence. reflexivity.
Qed.

Lemma slots_present_weaken (s : state) (n m : Z) :
  m <= n -> slots_present s n -> slots_present s m.
Proof. intros Hle [Hmt Hf]. split; [exact Hmt|]. intros j Hj. apply Hf. lia. Qed.

(** ** Claims on deletion *)

(** C7 as stated fails on its last part: with the same identifier in two
    slots the second call deletes the second record, and with the empty
    key the slot just cleared matches again. *)
Lemma delete_twice_deletes_twice :
  let twice := mkState true
                 {[ 0 := encode (mkEmployee "Ravi" "EMP003" "28" "SeniorExecutive" "40000");
                    1 := encode (mkEmployee "Raju" "EMP003" "29" "JuniorExecutive" "30000") ]}
                 false [] 2 in
  let blank := mkState true {[ 0 := encode zero_employee ]} false [] 1 in
  (exists s1 s2,
      delete_employee_by_id zeroed_stack "EMP003" twice = Some (Deleted, s1)
      /\ delete_employee_by_id zeroed_stack "EMP003" s1 = Some (Deleted, s2))
  /\ (exists s1 s2,
      delete_employee_by_id zeroed_stack EmptyString blank = Some (Deleted, s1)
      /\ delete_employee_by_id zeroed_stack EmptyString s1 = Some (Deleted, s2)).
Proof.
  cbv zeta. split.
  - do 2 eexists. split; [vm_compute; reflexivity|]. vm_compute. reflexivity.
  - do 2 eexists. split; [vm_compute; reflexivity|]. vm_compute. reflexivity.
Qed.

(** C7, amended. From a free mutex, on a mounted partition where the
    files of slots 0 to [k] exist: when [k] is the lowest slot in
    [0, MAX_ROWS) whose identifier is the key, [delete_employee_by_id]
    reads slots 0 to [k] in ascending order, writes the all-zero record
    to slot [k] and no other, reports the deletion and leaves
    [num_employees] as it was, and a read of slot [k] then yields the
    all-zero record. A second call for the same key reports a miss
    provided all [MAX_ROWS] files exist, the key is not empty and no other
    slot holds that identifier. When all [MAX_ROWS] files exist and no
    slot holds the key, the call reads all [MAX_ROWS] slots, reports a
    miss and changes no file. *)
Theorem delete_employee_by_id_lowest_match
    (junk junk' : Z -> EmployeeDetails) (id : string) (s : state) :
  spiffs_mutex s = false ->
  (forall k, 0 <= k < MAX_ROWS -> slots_present s (k + 1) ->
     c_str (Employee_ID (slot_record s k)) = c_str id ->
     (forall j, 0 <= j < k -> c_str (Employee_ID (slot_record s j)) <> c_str id) ->
     exists s', delete_employee_by_id junk id s = Some (Deleted, s')
       /\ files s' = <[k := encode zero_employee]> (files s)
       /\ num_employees s' = num_employees s
       /\ trace s' = trace s ++ scan_events (S (Z.to_nat k)) 0 ++ write_events k
       /\ (forall out, exists s'',
             read_employee_details k out s' = Some (zero_employee, s''))
       /\ (slots_present s MAX_ROWS -> c_str id <> EmptyString ->
           (forall j, 0 <= j < MAX_ROWS -> j <> k ->
              c_str (Employee_ID (slot_record s j)) <> c_str id) ->
           exists s'', delete_employee_by_id junk' id s' = Some (NotFound, s'')
             /\ files s'' = files s'
             /\ num_employees s'' = num_employees s))
  /\ (slots_present s MAX_ROWS ->
      (forall j, 0 <= j < MAX_ROWS -> c_str (Employee_ID (slot_record s j)) <> c_str id) ->
      exists s', delete_employee_by_id junk id s = Some (NotFound, s')
        /\ files s' = files s
        /\ num_employees s' = num_employees s
        /\ trace s' = trace s ++ scan_events (Z.to_nat MAX_ROWS) 0).
Proof.
  intros Hm. unfold delete_employee_by_id. split.
  - intros k Hk Hpres Hid Hlow.
    assert (F : first_match (id_matches junk id s) (Z.to_nat MAX_ROWS) 0 = Some k).
    { apply first_match_found.
      - unfold MAX_ROWS in *. lia.
      - rewrite (id_matches_present junk id s (k + 1) k Hpres) by lia.
        apply strcmp_eq_true. exact Hid.
      - intros j Hj. rewrite (id_matches_present junk id s (k + 1) j Hpres) by lia.
        apply strcmp_eq_false. apply Hlow. exact Hj. }
    rewrite delete_loop_spec by assumption. rewrite F.
    destruct Hpres as [Hmt Hfiles].
    eexists. split; [reflexivity|].
    split; [unfold written, after; cbn [files]; rewrite Hmt; reflexivity|].
    split; [reflexivity|].
    split; [unfold scan_len; rewrite Z.sub_0_r; reflexivity|].
    split.
    + intros out. eexists. rewrite read_employee_details_spec by reflexivity.
      rewrite (slot_view_written_eq _ s k zero_employee out Hmt). reflexivity.
    + intros Hall Hne Hothers.
      set (s' := after (scan_events (scan_len 0 k) 0 ++ write_events k)
                   (written s k zero_employee) s).
      assert (F' : first_match (id_matches junk' id s') (Z.to_nat MAX_ROWS) 0 = None).
      { apply first_match_absent. intros j Hj. unfold id_matches, s'.
        destruct (decide (j = k)) as [->|Hjk].
        - rewrite (slot_view_written_eq _ s k zero_employee _ Hmt).
          apply strcmp_eq_false. simpl. congruence.
        - rewrite (slot_view_written_ne _ s k j zero_employee _ Hjk).
          rewrite (slot_view_present s j _ Hmt)
            by (apply (proj2 Hall); unfold MAX_ROWS in *; lia).
          apply strcmp_eq_false. apply Hothers; [unfold MAX_ROWS in *; lia|exact Hjk]. }
      rewrite delete_loop_spec by reflexivity. rewrite F'.
      eexists. split; [reflexivity|]. split; reflexivity.
  - intros Hall Hnone.
    assert (F : first_match (id_matches junk id s) (Z.to_nat MAX_ROWS) 0 = None).
    { apply first_match_absent. intros j Hj.
      rewrite (id_matches_present junk id s MAX_ROWS j Hall) by (unfold MAX_ROWS in *; lia).
      apply strcmp_eq_false. apply Hnone. unfold MAX_ROWS in *. lia. }
    rewrite delete_loop_spec by assumption. rewrite F.
    eexists. split; [reflexivity|]. split; [reflexivity|]. split; reflexivity.
Qed.

(** Case analysis on a slot index of the table. *)
Lemma slot_index_cases (j : Z) :
  0 <= j < MAX_ROWS ->
  j = 0 \/ j = 1 \/ j = 2 \/ j = 3 \/ j = 4 \/ j = 5 \/ j = 6 \/ j = 7 \/ j = 8 \/ j = 9.
Proof. unfold MAX_ROWS. lia. Qed.

Ltac each_slot j Hj :=
  let Hc := fresh "Hc" in
  pose proof (slot_index_cases j Hj) as Hc;
  repeat (destruct Hc as [Hc|Hc]; [subst j|]); [..|subst j].

Lemma seeded_slots_present : slots_present seeded MAX_ROWS.
Proof.
  split; [vm_compute; reflexivity|].
  intros j Hj. each_slot j Hj; vm_compute; eauto.
Qed.

Lemma seeded_identifiers (j : Z) :
  0 <= j < MAX_ROWS -> j <> 5 ->
  c_str (Employee_ID (slot_record seeded j)) <> c_str "EMP006".
Proof.
  intros Hj Hne. each_slot j Hj; try congruence; vm_compute; discriminate.
Qed.

Lemma delete_employee_by_id_lowest_match_witness :
  spiffs_mutex seeded = false
  /\ exists s', delete_employee_by_id zeroed_stack "EMP006" seeded = Some (Deleted, s')
       /\ files s' = <[5 := encode zero_employee]> (files seeded)
       /\ exists s'', delete_employee_by_id zeroed_stack "EMP006" s' = Some (NotFound, s'').
Proof.
  assert (Hm : spiffs_mutex seeded = false) by (vm_compute; reflexivity).
  assert (Hk : 0 <= 5 < MAX_ROWS) by (split; [discriminate|reflexivity]).
  assert (Hid : c_str (Employee_ID (slot_record seeded 5)) = c_str "EMP006")
    by (vm_compute; reflexivity).
  assert (Hlow : forall j, 0 <= j < 5 ->
            c_str (Employee_ID (slot_record seeded j)) <> c_str "EMP006")
    by (intros j Hj; apply seeded_identifiers; unfold MAX_ROWS; lia).
  assert (Hkey : c_str "EMP006" <> EmptyString) by (vm_compute; discriminate).
  split; [exact Hm|].
  destruct (delete_employee_by_id_lowest_match zeroed_stack zeroed_stack "EMP006" seeded Hm)
    as [Hfound _].
  destruct (Hfound 5 Hk
              (slots_present_weaken seeded MAX_ROWS (5 + 1) ltac:(discriminate)
                 seeded_slots_present) Hid Hlow)
    as (s' & Hd & Hf & _ & _ & _ & Hagain).
  exists s'. split; [exact Hd|]. split; [exact Hf|].
  destruct (Hagain seeded_slots_present Hkey seeded_identifiers) as (s'' & Hd' & _).
  exists s''. exact Hd'.
Defined.

(** ** Claims on insertion *)

(** Two keys that are the same C string drive the scan the same way. *)
Lemma get_loop_key (junk : Z -> EmployeeDetails) (id1 id2 : string) (n : nat) (i : Z) (s : state) :
  c_str id1 = c_str id2 -> get_loop junk id1 n i s = get_loop junk id2 n i s.
Proof.
  intros H. revert i s; induction n as [|n IH]; intros i s; simpl; [reflexivity|].
  unfold mbind, M_bind. destruct (read_employee_details i (junk i) s) as [[cur s1]|];
    [|reflexivity].
  unfold strcmp_eq. rewrite H. destruct (String.eqb _ _); [reflexivity|]. apply IH.
Qed.

Lemma snprintf_s_fits (id : string) :
  (String.length (c_str id) <= Nat.pred MAX_FIELD_SIZE)%nat ->
  c_str (snprintf_s MAX_FIELD_SIZE id) = c_str id.
Proof.
  intros H. unfold snprintf_s. rewrite str_take_all by exact H. apply c_str_idem.
Qed.

(** C5 as stated fails on its last part: after an insertion with an empty
    field, or with a newline in a field, the lookup of the inserted
    identifier finds nothing; after two insertions of one identifier it
    returns the first record, not the one just inserted; and an
    identifier longer than 19 characters is stored cut and is not found
    under its full spelling. *)
Lemma add_then_find_misses :
  let r1 := new_employee "Bob" "EMP1" EmptyString "Eng" "1" in
  let r2 := new_employee "Bob
Ray" "EMP1" "30" "Eng" "1" in
  let r3 := new_employee "Raju" "EMP099" "29" "JuniorExecutive" "30000" in
  let r4 := new_employee "Bob" "EMPLOYEE-NUMBER-000001" "30" "Eng" "1" in
  (exists s1 s2,
      add_new_employee "Bob" "EMP1" EmptyString "Eng" "1" seeded = Some (Added, s1)
      /\ get_employee_details_by_id zeroed_stack "EMP1" s1 = Some (zero_employee, s2)
      /\ r1 <> zero_employee)
  /\ (exists s1 s2,
      add_new_employee "Bob
Ray" "EMP1" "30" "Eng" "1" seeded = Some (Added, s1)
      /\ get_employee_details_by_id zeroed_stack "EMP1" s1 = Some (zero_employee, s2)
      /\ r2 <> zero_employee)
  /\ (exists s1 s2 s3 found,
      add_new_employee "Ravi" "EMP099" "28" "SeniorExecutive" "40000" seeded = Some (Added, s1)
      /\ add_new_employee "Raju" "EMP099" "29" "JuniorExecutive" "30000" s1 = Some (Added, s2)
      /\ get_employee_details_by_id zeroed_stack "EMP099" s2 = Some (found, s3)
      /\ found = new_employee "Ravi" "EMP099" "28" "SeniorExecutive" "40000"
      /\ found <> r3)
  /\ (exists s1 s2,
      add_new_employee "Bob" "EMPLOYEE-NUMBER-000001" "30" "Eng" "1" seeded = Some (Added, s1)
      /\ get_employee_details_by_id zeroed_stack "EMPLOYEE-NUMBER-000001" s1
         = Some (zero_employee, s2)
      /\ Employee_ID r4 = "EMPLOYEE-NUMBER-000"
      /\ r4 <> zero_employee).
Proof.
  cbv zeta. split; [|split; [|split]].
  - do 2 eexists. split; [vm_compute; reflexivity|].
    split; [vm_compute; reflexivity|]. vm_compute; discriminate.
  - do 2 eexists. split; [vm_compute; reflexivity|].
    split; [vm_compute; reflexivity|]. vm_compute; discriminate.
  - do 4 eexists. split; [vm_compute; reflexivity|]. split; [vm_compute; reflexivity|].
    split; [vm_compute; reflexivity|]. split; [vm_compute; reflexivity|].
    vm_compute; discriminate.
  - do 2 eexists. split; [vm_compute; reflexivity|].
    split; [vm_compute; reflexivity|]. split; [vm_compute; reflexivity|].
    vm_compute; discriminate.
Qed.

(** C5, amended. From a free mutex and with [num_employees] below
    [MAX_ROWS], [add_new_employee] builds the record of its five
    arguments, each cut to its first 19 characters, writes it to slot
    [num_employees] (on a mounted partition) and to no other, and then
    adds exactly one to [num_employees]. A lookup of the stored
    identifier right after returns the stored record provided the
    counter is not negative, the partition is mounted, the files of the
    lower slots exist and none of them holds that identifier, and the
    five stored fields are non-empty and without newline; the lookup
    under the identifier as given does so as well when it has at most 19
    characters. *)
Theorem add_new_employee_then_find
    (junk : Z -> EmployeeDetails) (name id age position salary : string) (s : state) :
  spiffs_mutex s = false -> num_employees s < MAX_ROWS ->
  let r := new_employee name id age position salary in
  r = mkEmployee (str_take 19 (c_str name)) (str_take 19 (c_str id))
                 (str_take 19 (c_str age)) (str_take 19 (c_str position))
                 (str_take 19 (c_str salary))
  /\ exists s', add_new_employee name id age position salary s = Some (Added, s')
       /\ files s' = (if mounted s then <[num_employees s := encode r]> (files s)
                      else files s)
       /\ num_employees s' = num_employees s + 1
       /\ trace s' = trace s ++ write_events (num_employees s)
       /\ (0 <= num_employees s -> slots_present s (num_employees s) ->
           record_ok r = true ->
           (forall j, 0 <= j < num_employees s ->
              c_str (Employee_ID (slot_record s j)) <> c_str (Employee_ID r)) ->
           (exists s'', get_employee_details_by_id junk (Employee_ID r) s' = Some (r, s''))
           /\ ((String.length (c_str id) <= 19)%nat ->
               exists s'', get_employee_details_by_id junk id s' = Some (r, s''))).
Proof.
  intros Hm Hn r. split; [reflexivity|].
  rewrite add_new_employee_spec by assumption. fold r.
  eexists. split; [reflexivity|]. split; [reflexivity|]. split; [reflexivity|].
  split; [reflexivity|].
  intros H0 Hpres Hok Hlow. destruct Hpres as [Hmt Hfiles].
  set (n := num_employees s) in *.
  set (s' := set_num (n + 1) (after (write_events n) (written s n r) s)).
  assert (Hview : slot_view s' n (junk n) = r).
  { unfold s'. change (slot_view (set_num (n + 1) ?x)) with (slot_view x).
    rewrite (slot_view_written_eq _ s n r _ Hmt). apply decode_encode. exact Hok. }
  assert (F : first_match (id_matches junk (Employee_ID r) s') (Z.to_nat MAX_ROWS) 0 = Some n).
  { apply first_match_found.
    - unfold MAX_ROWS in *. lia.
    - unfold id_matches. rewrite Hview. apply strcmp_eq_true. reflexivity.
    - intros j Hj. unfold id_matches, s'.
      change (slot_view (set_num (n + 1) ?x)) with (slot_view x).
      rewrite (slot_view_written_ne _ s n j r _) by lia.
      rewrite (slot_view_present s j _ Hmt) by (apply Hfiles; lia).
      apply strcmp_eq_false. apply Hlow. lia. }
  assert (G : exists s'', get_employee_details_by_id junk (Employee_ID r) s' = Some (r, s'')).
  { unfold get_employee_details_by_id. rewrite get_loop_spec by reflexivity.
    rewrite F, Hview. eexists. reflexivity. }
  split; [exact G|].
  intros Hlen. destruct G as (s'' & G). exists s''.
  unfold get_employee_details_by_id in *.
  rewrite (get_loop_key junk id (Employee_ID r)); [exact G|].
  symmetry. apply snprintf_s_fits. exact Hlen.
Qed.

Lemma add_new_employee_then_find_witness :
  spiffs_mutex seeded = false /\ num_employees seeded < MAX_ROWS
  /\ exists s', add_new_employee "New Employee 1" "EMP011" "25" "New Position 1" "60000" seeded
                = Some (Added, s')
       /\ num_employees s' = num_employees seeded + 1
       /\ exists s'', get_employee_details_by_id zeroed_stack "EMP011" s'
            = Some (new_employee "New Employee 1" "EMP011" "25" "New Position 1" "60000", s'').
Proof.
  assert (Hm : spiffs_mutex seeded = false) by (vm_compute; reflexivity).
  assert (Hn : num_employees seeded < MAX_ROWS) by (vm_compute; reflexivity).
  assert (H0 : 0 <= num_employees seeded) by (vm_compute; discriminate).
  assert (Hp : slots_present seeded (num_employees seeded))
    by (apply (slots_present_weaken seeded MAX_ROWS);
        [vm_compute; discriminate|exact seeded_slots_present]).
  assert (Hlow : forall j, 0 <= j < num_employees seeded ->
            c_str (Employee_ID (slot_record seeded j))
            <> c_str (Employee_ID
                 (new_employee "New Employee 1" "EMP011" "25" "New Position 1" "60000")))
    by (intros j Hj; exfalso; change (num_employees seeded) with 0 in Hj; lia).
  split; [exact Hm|]. split; [exact Hn|].
  destruct (add_new_employee_then_find zeroed_stack
              "New Employee 1" "EMP011" "25" "New Position 1" "60000" seeded Hm Hn)
    as (_ & s' & Ha & _ & Hc & _ & Hfind).
  exists s'. split; [exact Ha|]. split; [exact Hc|].
  destruct (Hfind H0 Hp ltac:(vm_compute; reflexivity) Hlow) as (_ & Hkey).
  apply Hkey. vm_compute. lia.
Defined.

(** ** Claims on the start-up sequence *)

(** C2 as stated fails on its last part: on a freshly formatted partition
    the deletion of "EMP006" at the end of the start-up sequence reports
    a deletion, not a miss. *)
Lemma app_main_deletes_EMP006 :
  exists found s',
    app_main (Some ∅) zeroed_stack zeroed_stack power_on = Some ((Deleted, found), s')
    /\ Deleted <> NotFound.
Proof. do 2 eexists. split; [vm_compute; reflexivity|discriminate]. Qed.

(** One step of a sequence whose first call is known. *)
Lemma bind_some {A B : Type} (m : M A) (f : A -> M B) (s s1 : state) (a : A) :
  m s = Some (a, s1) -> (m ≫= f) s = f a s1.
Proof. intros H. unfold mbind, M_bind. rewrite H. reflexivity. Qed.

(** The seeding loop writes every record of the table to its slot. *)
Lemma seed_loop_files (es : list EmployeeDetails) (i : Z) (s : state) :
  spiffs_mutex s = false -> mounted s = true ->
  exists evs, seed_loop es i s = Some (tt, after evs (write_all es i (files s)) s).
Proof.
  revert i s; induction es as [|e es IH]; intros i s Hm Hmt.
  - exists []. simpl. rewrite (after_nil s Hm). reflexivity.
  - simpl seed_loop. rewrite (bind_some _ _ _ _ _ (write_employee_details_spec i e s Hm)).
    destruct (IH (i + 1) (after (write_events i) (written s i e) s) eq_refl Hmt) as (evs & Hr).
    rewrite Hr, after_after. unfold written. rewrite Hmt. eexists. reflexivity.
Qed.

(** A slot holding the five lines of a well-formed record, or of the
    all-zero record, reads with the identifier of that record. *)
Lemma id_matches_file (junk : Z -> EmployeeDetails) (id : string) (s : state) (j : Z)
    (e : EmployeeDetails) :
  mounted s = true -> files s !! j = Some (encode e) ->
  record_ok e = true \/ e = zero_employee ->
  id_matches junk id s j = strcmp_eq (Employee_ID e) id.
Proof.
  intros Hmt Hf He. unfold id_matches, slot_view, open_r. rewrite Hmt, Hf.
  destruct He as [He| ->]; [rewrite decode_encode by exact He|]; reflexivity.
Qed.

Lemma slot_view_file (s : state) (j : Z) (e out : EmployeeDetails) :
  mounted s = true -> files s !! j = Some (encode e) -> record_ok e = true ->
  slot_view s j out = e.
Proof.
  intros Hmt Hf He. unfold slot_view, open_r. rewrite Hmt, Hf. apply decode_encode. exact He.
Qed.

(** The file of a slot in a map given by explicit updates. *)
Ltac lookup_slot :=
  cbn [files after set_num];
  repeat (rewrite lookup_insert_ne by lia);
  apply lookup_insert_eq.

(** Evaluation of the closed slot indices left by the loops. *)
Ltac norm_Z :=
  repeat match goal with
  | |- context [Z.add ?a ?b] =>
      let v := eval vm_compute in (Z.add a b) in change (Z.add a b) with v
  end.

(** The states a proof has named, spelled out. *)
Ltac open_states :=
  repeat match goal with
  | x := _ : state |- _ => progress unfold x
  end;
  cbn [files after set_num written mounted].

(** C2, amended. Whatever files the mounted partition holds at start-up
    and whatever the uninitialised locals hold, [app_main] returns, and
    it runs as follows. The seeding loop puts the ten records of
    [employees], with identifiers "EMP001" to "EMP010", in slots 0 to 9
    while [num_employees] stays 0. The four insertions then overwrite
    slots 0 to 3, leave the other files as the seeding left them, and
    leave [num_employees] at 4. [delete_employee_by_id("EMP006")] then
    finds "EMP006" in slot 5, which no insertion touched, clears that
    slot and no other, and reports the deletion. The lookup of "EMP009"
    last returns the seed record of slot 8 and changes nothing. *)
Theorem app_main_scenario (flash : gmap Z string) (junk_delete junk_get : Z -> EmployeeDetails) :
  let n1 := new_employee "New Employee 1" "EMP011" "25" "New Position 1" "60000" in
  let n2 := new_employee "New Employee 2" "EMP012" "27" "New Position 2" "65000" in
  let n3 := new_employee "New Employee 3" "EMP013" "29" "New Position 3" "70000" in
  let n4 := new_employee "New Employee 4" "EMP014" "30" "New Position 4" "75000" in
  let sai := mkEmployee "Sai" "EMP009" "26" "Developer" "25000" in
  exists s_seed s_ins s_del s',
    (create_mutex ;; initialize_spiffs (Some flash) ;; seed_loop employees 0) power_on
    = Some (tt, s_seed)
    /\ num_employees s_seed = 0
    /\ map Employee_ID employees
       = ["EMP001"; "EMP002"; "EMP003"; "EMP004"; "EMP005";
          "EMP006"; "EMP007"; "EMP008"; "EMP009"; "EMP010"]
    /\ (forall j, 0 <= j < MAX_ROWS ->
          exists e, employees !! Z.to_nat j = Some e /\ files s_seed !! j = Some (encode e))
    /\ (add_new_employee "New Employee 1" "EMP011" "25" "New Position 1" "60000" ;;
        add_new_employee "New Employee 2" "EMP012" "27" "New Position 2" "65000" ;;
        add_new_employee "New Employee 3" "EMP013" "29" "New Position 3" "70000" ;;
        add_new_employee "New Employee 4" "EMP014" "30" "New Position 4" "75000") s_seed
       = Some (Added, s_ins)
    /\ num_employees s_ins = 4
    /\ files s_ins
       = <[3 := encode n4]> (<[2 := encode n3]> (<[1 := encode n2]>
           (<[0 := encode n1]> (files s_seed))))
    /\ delete_employee_by_id junk_delete "EMP006" s_ins = Some (Deleted, s_del)
    /\ files s_del = <[5 := encode zero_employee]> (files s_ins)
    /\ num_employees s_del = 4
    /\ get_employee_details_by_id junk_get "EMP009" s_del = Some (sai, s')
    /\ files s' = files s_del
    /\ num_employees s' = 4
    /\ files s' !! 0 = Some (encode n1) /\ files s' !! 1 = Some (encode n2)
    /\ files s' !! 2 = Some (encode n3) /\ files s' !! 3 = Some (encode n4)
    /\ files s' !! 5 = Some (encode zero_employee)
    /\ app_main (Some flash) junk_delete junk_get power_on = Some ((Deleted, sai), s').
Proof.
  intros n1 n2 n3 n4 sai.
  (* seeding *)
  destruct (seed_loop_files employees 0 (mkState true flash false [] 0) eq_refl eq_refl)
    as (evs & Hseed).
  unfold after in Hseed. cbn [mounted files spiffs_mutex trace num_employees] in Hseed.
  cbn [write_all employees] in Hseed.
  repeat match type of Hseed with
  | context [Z.add ?a ?b] =>
      let v := eval vm_compute in (Z.add a b) in change (Z.add a b) with v in Hseed
  end.
  match type of Hseed with _ = Some (_, ?S) => set (S1 := S) in * end.
  (* the four insertions *)
  assert (Hadd : forall a b c d e s n,
             spiffs_mutex s = false -> mounted s = true -> num_employees s = n ->
             n < MAX_ROWS ->
             add_new_employee a b c d e s
             = Some (Added, mkState true (<[n := encode (new_employee a b c d e)]> (files s))
                              false (trace s ++ write_events n) (n + 1))).
  { intros a b c d e s n Hm Hmt Hn Hlt. subst n.
    rewrite add_new_employee_spec by assumption.
    unfold set_num, after, written. cbn [mounted files spiffs_mutex trace num_employees].
    rewrite Hmt. reflexivity. }
  pose proof (Hadd "New Employee 1" "EMP011" "25" "New Position 1" "60000" S1 0
                eq_refl eq_refl eq_refl eq_refl) as H1.
  match type of H1 with _ = Some (_, ?S) => set (S1a := S) in * end.
  pose proof (Hadd "New Employee 2" "EMP012" "27" "New Position 2" "65000" S1a 1
                eq_refl eq_refl eq_refl eq_refl) as H2.
  match type of H2 with _ = Some (_, ?S) => set (S1b := S) in * end.
  pose proof (Hadd "New Employee 3" "EMP013" "29" "New Position 3" "70000" S1b 2
                eq_refl eq_refl eq_refl eq_refl) as H3.
  match type of H3 with _ = Some (_, ?S) => set (S1c := S) in * end.
  pose proof (Hadd "New Employee 4" "EMP014" "30" "New Position 4" "75000" S1c 3
                eq_refl eq_refl eq_refl eq_refl) as H4.
  match type of H4 with _ = Some (_, ?S) => set (S2 := S) in * end.
  clear Hadd.
  (* the deletion *)
  set (S3 := after (scan_events (scan_len 0 5) 0 ++ write_events 5)
               (written S2 5 zero_employee) S2).
  assert (Hdel : delete_employee_by_id junk_delete "EMP006" S2 = Some (Deleted, S3)).
  { unfold delete_employee_by_id. rewrite delete_loop_spec by reflexivity.
    rewrite (first_match_found _ _ 0 5); [reflexivity|unfold MAX_ROWS; lia| |].
    - erewrite id_matches_file;
        [|reflexivity|open_states; lookup_slot|left; vm_compute; reflexivity].
      vm_compute. reflexivity.
    - intros j Hj. assert (Hj' : 0 <= j < MAX_ROWS) by (unfold MAX_ROWS; lia).
      each_slot j Hj'; try lia;
        (erewrite id_matches_file;
         [|reflexivity|open_states; lookup_slot|left; vm_compute; reflexivity]);
        vm_compute; reflexivity. }
  (* the lookup *)
  set (S4 := after (scan_events (scan_len 0 8) 0) (files S3) S3).
  assert (Hget : get_employee_details_by_id junk_get "EMP009" S3 = Some (sai, S4)).
  { unfold get_employee_details_by_id. rewrite get_loop_spec by reflexivity.
    rewrite (first_match_found _ _ 0 8); [|unfold MAX_ROWS; lia| |].
    - erewrite slot_view_file;
        [|reflexivity|open_states; lookup_slot|vm_compute; reflexivity].
      reflexivity.
    - erewrite id_matches_file;
        [|reflexivity|open_states; lookup_slot|left; vm_compute; reflexivity].
      vm_compute. reflexivity.
    - intros j Hj. assert (Hj' : 0 <= j < MAX_ROWS) by (unfold MAX_ROWS; lia).
      each_slot j Hj'; try lia;
        (erewrite id_matches_file;
         [|reflexivity|open_states; lookup_slot
          |first [left; vm_compute; reflexivity|right; reflexivity]]);
        vm_compute; reflexivity. }
  exists S1, S2, S3, S4.
  split. { rewrite (bind_some create_mutex _ power_on _ tt eq_refl).
           rewrite (bind_some (initialize_spiffs (Some flash)) _ _ _ tt eq_refl).
           exact Hseed. }
  split; [reflexivity|]. split; [reflexivity|].
  split. { intros j Hj. each_slot j Hj; eexists; (split; [reflexivity|]); open_states; lookup_slot. }
  split. { rewrite (bind_some _ _ _ _ _ H1), (bind_some _ _ _ _ _ H2), (bind_some _ _ _ _ _ H3).
           exact H4. }
  split; [reflexivity|]. split; [reflexivity|].
  split; [exact Hdel|]. split; [reflexivity|]. split; [reflexivity|].
  split; [exact Hget|]. split; [reflexivity|]. split; [reflexivity|].
  split; [open_states; lookup_slot|].
  split; [open_states; lookup_slot|].
  split; [open_states; lookup_slot|].
  split; [open_states; lookup_slot|].
  split; [open_states; lookup_slot|].
  unfold app_main.
  rewrite (bind_some create_mutex _ power_on _ tt eq_refl).
  rewrite (bind_some (initialize_spiffs (Some flash)) _ _ _ tt eq_refl).
  rewrite (bind_some _ _ _ _ _ Hseed).
  rewrite (bind_some _ _ _ _ _ H1), (bind_some _ _ _ _ _ H2), (bind_some _ _ _ _ _ H3),
    (bind_some _ _ _ _ _ H4).
  rewrite (bind_some _ _ _ _ _ Hdel), (bind_some _ _ _ _ _ Hget). reflexivity.
Qed.

(** * Further properties of the program *)

(** ** Buffers never overflow *)

Lemma c_str_length (s : string) : (String.length (c_str s) <= String.length s)%nat.
Proof.
  induction s as [|c s IH]; simpl; [lia|].
  destruct (Ascii.eqb c NUL); simpl; lia.
Qed.

Lemma scan_set_length (w : nat) (st : string) :
  (String.length (fst (scan_set w st)) <= w)%nat.
Proof.
  revert st; induction w as [|w IH]; intros [|c st]; simpl; try lia.
  destruct (Ascii.eqb c LF); simpl; [lia|].
  specialize (IH st). destruct (scan_set w st) as [tok rest]. simpl in *. lia.
Qed.

Lemma scan_set_plain (w : nat) (st : string) :
  plain (c_str (fst (scan_set w st))) = true.
Proof.
  revert st; induction w as [|w IH]; intros [|c st]; simpl; try reflexivity.
  destruct (Ascii.eqb c LF) eqn:Elf; simpl; [reflexivity|].
  specialize (IH st). destruct (scan_set w st) as [tok rest]. simpl in *.
  destruct (Ascii.eqb c NUL) eqn:En; simpl; [reflexivity|].
  rewrite En, Elf, IH. reflexivity.
Qed.

Lemma fscanf_field_fits (st v rest : string) :
  fscanf_field st = Some (v, rest) -> fits_buffer v = true.
Proof.
  unfold fscanf_field, fits_buffer. intros H.
  pose proof (scan_set_length (Nat.pred MAX_FIELD_SIZE) st) as Hl.
  pose proof (scan_set_plain (Nat.pred MAX_FIELD_SIZE) st) as Hp.
  destruct (scan_set (Nat.pred MAX_FIELD_SIZE) st) as [tok rest'].
  destruct tok as [|c tok]; [discriminate|].
  assert (Hv : v = c_str (String c tok)) by congruence. rewrite Hv.
  cbn [fst] in Hl, Hp. rewrite Hp, andb_true_r. apply Nat.leb_le.
  pose proof (c_str_length (String c tok)). lia.
Qed.

Lemma decode_into_fits (st : string) (out : EmployeeDetails) :
  record_fits (decode_into st out) = true.
Proof.
  destruct (decode_into_cases st out) as [-> | H]; [reflexivity|].
  destruct H as (v1 & st1 & v2 & st2 & v3 & st3 & v4 & st4 & v5 & st5
                 & H1 & H2 & H3 & H4 & H5 & ->).
  unfold record_fits. cbn [Employee_Name Employee_ID Employee_Age Employee_Position
                             Employee_Salary].
  rewrite (fscanf_field_fits _ _ _ H1), (fscanf_field_fits _ _ _ H2),
    (fscanf_field_fits _ _ _ H3), (fscanf_field_fits _ _ _ H4),
    (fscanf_field_fits _ _ _ H5). reflexivity.
Qed.

(** X1. [read_employee_details] never stores more than 19 characters, nor
    a newline, in a field: from a free mutex, called on a record whose
    fields fit their arrays, it returns a record whose fields fit their
    arrays, whatever the file holds and whether or not it opens; and when
    the file opens this holds whatever the record held before. *)
Theorem read_employee_details_fits_buffers
    (i : Z) (out : EmployeeDetails) (s : state) :
  spiffs_mutex s = false ->
  exists e s', read_employee_details i out s = Some (e, s')
    /\ (record_fits out = true -> record_fits e = true)
    /\ (forall st, open_r s i = Some st -> record_fits e = true).
Proof.
  intros Hm. do 2 eexists. rewrite read_employee_details_spec by assumption.
  split; [reflexivity|]. unfold slot_view. split.
  - intros Hout. destruct (open_r s i); [apply decode_into_fits|exact Hout].
  - intros st ->. apply decode_into_fits.
Qed.

(** A file with a line of 26 characters and a line of 3. *)
Lemma read_employee_details_fits_buffers_witness :
  let s := mkState true {[ 0 := "ABCDEFGHIJKLMNOPQRSTUVWXYZ
abc" ]} false [] 0 in
  spiffs_mutex s = false
  /\ exists e s', read_employee_details 0 zero_employee s = Some (e, s')
       /\ record_fits e = true.
Proof.
  intros s. split; [reflexivity|].
  destruct (read_employee_details_fits_buffers 0 zero_employee s eq_refl)
    as (e & s' & Hr & Hfit & _).
  exists e, s'. split; [exact Hr|]. apply Hfit. reflexivity.
Defined.

Lemma str_take_plain (n : nat) (s : string) : plain s = true -> plain (str_take n s) = true.
Proof.
  revert s; induction n as [|n IH]; intros [|c s]; simpl; try reflexivity.
  intros H. apply andb_prop in H as [Hc Hs]. rewrite Hc, (IH s Hs). reflexivity.
Qed.

Lemma c_str_no_nul (s : string) :
  forall c, In c (list_ascii_of_string (c_str s)) -> c <> NUL.
Proof.
  induction s as [|a s IH]; simpl; [intros c []|].
  destruct (Ascii.eqb a NUL) eqn:E; simpl; [intros c []|].
  intros c [<-|Hin]; [apply Ascii.eqb_neq; exact E|apply IH; exact Hin].
Qed.

Lemma str_take_In (n : nat) (s : string) (c : ascii) :
  In c (list_ascii_of_string (str_take n s)) -> In c (list_ascii_of_string s).
Proof.
  revert s; induction n as [|n IH]; intros [|a s]; simpl; try tauto.
  intros [H|H]; [left; exact H|right; apply IH; exact H].
Qed.

(** X2. Whatever strings [add_new_employee] is given, no field of the
    record it builds exceeds 19 characters or holds a NUL byte: the five
    [snprintf] calls cannot overflow the arrays of [MAX_FIELD_SIZE]
    bytes, and a string that already fits is stored whole. *)
Theorem new_employee_fields_fit (name id age position salary : string) :
  let r := new_employee name id age position salary in
  (forall f, In f [Employee_Name r; Employee_ID r; Employee_Age r;
                   Employee_Position r; Employee_Salary r] ->
     (String.length f <= 19)%nat
     /\ forall c, In c (list_ascii_of_string f) -> c <> NUL)
  /\ ((String.length (c_str id) <= 19)%nat -> Employee_ID r = c_str id).
Proof.
  intros r. split.
  - intros f Hf.
    assert (H : exists x, f = snprintf_s MAX_FIELD_SIZE x).
    { simpl in Hf. destruct Hf as [<-|[<-|[<-|[<-|[<-|[]]]]]]; eexists; reflexivity. }
    destruct H as [x ->]. unfold snprintf_s. split.
    + apply (str_take_length (Nat.pred MAX_FIELD_SIZE)).
    + intros c Hc. apply (c_str_no_nul x). apply (str_take_In _ _ _ Hc).
  - intros Hl. unfold r, new_employee, snprintf_s. cbn [Employee_ID].
    apply str_take_all. exact Hl.
Qed.

(** ** Lines the codec cannot carry *)

Lemma scan_set_long (w : nat) (f rest : string) :
  plain f = true -> (w <= String.length f)%nat ->
  scan_set w (String.append f rest) = (str_take w f, String.append (str_drop w f) rest).
Proof.
  revert f; induction w as [|w IH]; intros f Hp Hl.
  - destruct f; simpl; destruct rest; reflexivity.
  - destruct f as [|c f]; simpl in Hl; [lia|].
    simpl in Hp. apply andb_prop in Hp as [Hc Hp]. apply andb_prop in Hc as [_ Hlf].
    apply negb_true_iff in Hlf. simpl. rewrite Hlf, (IH f Hp) by lia. reflexivity.
Qed.

Lemma str_drop_S (n : nat) (f rest : string) :
  (n < String.length f)%nat ->
  skip_char (String.append (str_drop n f) rest) = String.append (str_drop (S n) f) rest.
Proof.
  revert f; induction n as [|n IH]; intros [|c f]; simpl; intros Hl; try lia.
  - destruct f; reflexivity.
  - apply IH. lia.
Qed.

(** X3. A line of 20 or more characters puts the fields out of step: the
    [fscanf] call stores its first 19 characters, drops the twentieth,
    and leaves the rest of that same line to be read as the next field. *)
Theorem fscanf_field_long_line (f rest : string) :
  plain f = true -> (Nat.pred MAX_FIELD_SIZE < String.length f)%nat ->
  fscanf_field (String.append f rest)
  = Some (str_take 19 f, String.append (str_drop 20 f) rest).
Proof.
  intros Hp Hl. unfold fscanf_field.
  rewrite (scan_set_long _ f rest Hp) by lia.
  destruct f as [|c f]; [simpl in Hl; lia|].
  change (str_take (Nat.pred MAX_FIELD_SIZE) (String c f))
    with (String c (str_take 18 f)).
  change (String c (str_take 18 f)) with (str_take 19 (String c f)).
  rewrite (plain_c_str _ (str_take_plain 19 _ Hp)).
  rewrite (str_drop_S (Nat.pred MAX_FIELD_SIZE) (String c f) rest Hl). reflexivity.
Qed.

Lemma fscanf_field_long_line_witness :
  let f := "ABCDEFGHIJKLMNOPQRSTUVWXYZ" in
  let rest := "
EMP001
" in
  plain f = true /\ (Nat.pred MAX_FIELD_SIZE < String.length f)%nat
  /\ fscanf_field (String.append f rest) = Some ("ABCDEFGHIJKLMNOPQRS", "UVWXYZ
EMP001
").
Proof.
  intros f rest. split; [reflexivity|]. split; [simpl; lia|].
  exact (fscanf_field_long_line f rest eq_refl ltac:(simpl; lia)).
Defined.

(** X4. One [fscanf] call of [read_employee_details] fails exactly when
    the stream is at its end or at an empty line; on every other stream
    it stores a field and moves on. *)
Theorem fscanf_field_fails_iff (st : string) :
  fscanf_field st = None <-> st = EmptyString \/ exists rest, st = String LF rest.
Proof.
  split.
  - destruct st as [|c st]; [left; reflexivity|].
    intros H. right. destruct (Ascii.eqb c LF) eqn:E.
    + apply Ascii.eqb_eq in E. subst c. eexists. reflexivity.
    + exfalso. unfold fscanf_field in H.
      change (scan_set (Nat.pred MAX_FIELD_SIZE) (String c st))
        with (if Ascii.eqb c LF then (EmptyString, String c st)
              else let (tok, rest) := scan_set 18 st in (String c tok, rest)) in H.
      rewrite E in H. destruct (scan_set 18 st) as [tok rest]. discriminate H.
  - intros [-> | [rest ->]]; reflexivity.
Qed.

(** X5. Two records whose fields are all well formed and that are written
    as the same five lines are the same record: on such records the file
    format loses nothing. *)
Theorem encode_injective (r1 r2 : EmployeeDetails) :
  record_ok r1 = true -> record_ok r2 = true -> encode r1 = encode r2 -> r1 = r2.
Proof.
  intros H1 H2 He.
  rewrite <- (decode_encode r1 zero_employee H1), <- (decode_encode r2 zero_employee H2), He.
  reflexivity.
Qed.

Lemma encode_injective_witness :
  let r := mkEmployee "Sai" "EMP009" "26" "Developer" "25000" in
  record_ok r = true /\ (encode r = encode r -> r = r).
Proof.
  intros r. split; [reflexivity|].
  exact (encode_injective r r eq_refl eq_refl).
Defined.

(** ** Slot operations: what they touch *)

(** X6. On a mounted partition a write replaces the content of its slot:
    after two writes to one slot the file holds the five lines of the
    second record only, every other file is as before, and the counter is
    untouched. *)
Theorem write_employee_details_replaces
    (i : Z) (r1 r2 : EmployeeDetails) (s : state) :
  spiffs_mutex s = false -> mounted s = true ->
  exists s1 s2, write_employee_details i r1 s = Some (tt, s1)
    /\ write_employee_details i r2 s1 = Some (tt, s2)
    /\ files s2 = <[i := encode r2]> (files s)
    /\ num_employees s2 = num_employees s.
Proof.
  intros Hm Hmt. do 2 eexists.
  rewrite write_employee_details_spec by assumption. split; [reflexivity|].
  rewrite write_employee_details_spec by reflexivity. split; [reflexivity|].
  unfold written, after. cbn [mounted files num_employees]. rewrite Hmt.
  rewrite insert_insert_eq. split; reflexivity.
Qed.

Lemma write_employee_details_replaces_witness :
  let s := mkState true {[ 4 := "old" ]} false [] 0 in
  let r1 := mkEmployee "Vivek" "EMP005" "21" "CEO" "100000" in
  let r2 := mkEmployee "Monoj" "EMP006" "25" "MarketingExecutive" "40000" in
  spiffs_mutex s = false /\ mounted s = true
  /\ exists s1 s2, write_employee_details 4 r1 s = Some (tt, s1)
       /\ write_employee_details 4 r2 s1 = Some (tt, s2)
       /\ files s2 = <[4 := encode r2]> (files s)
       /\ num_employees s2 = num_employees s.
Proof.
  intros s r1 r2. split; [reflexivity|]. split; [reflexivity|].
  exact (write_employee_details_replaces 4 r1 r2 s eq_refl eq_refl).
Defined.

(** X7. Writes to two different slots do not interfere: in either order
    they leave the same files. *)
Theorem write_employee_details_commute
    (i j : Z) (ri rj : EmployeeDetails) (s : state) :
  spiffs_mutex s = false -> i <> j ->
  exists s1 s2 t1 t2,
    write_employee_details i ri s = Some (tt, s1)
    /\ write_employee_details j rj s1 = Some (tt, s2)
    /\ write_employee_details j rj s = Some (tt, t1)
    /\ write_employee_details i ri t1 = Some (tt, t2)
    /\ files s2 = files t2
    /\ forall k, k <> i -> k <> j -> files s2 !! k = files s !! k.
Proof.
  intros Hm Hij. do 4 eexists.
  split; [apply (write_employee_details_spec i ri s Hm)|].
  split; [apply write_employee_details_spec; reflexivity|].
  split; [apply (write_employee_details_spec j rj s Hm)|].
  split; [apply write_employee_details_spec; reflexivity|].
  unfold written, after. cbn [mounted files]. destruct (mounted s).
  - split; [apply insert_insert_ne; congruence|].
    intros k Hki Hkj. rewrite !lookup_insert_ne by congruence. reflexivity.
  - split; reflexivity.
Qed.

Lemma write_employee_details_commute_witness :
  let s := mkState true ∅ false [] 0 in
  let r1 := mkEmployee "Vivek" "EMP005" "21" "CEO" "100000" in
  let r2 := mkEmployee "Monoj" "EMP006" "25" "MarketingExecutive" "40000" in
  spiffs_mutex s = false /\ 4 <> 5
  /\ exists s1 s2 t1 t2,
       write_employee_details 4 r1 s = Some (tt, s1)
       /\ write_employee_details 5 r2 s1 = Some (tt, s2)
       /\ write_employee_details 5 r2 s = Some (tt, t1)
       /\ write_employee_details 4 r1 t1 = Some (tt, t2)
       /\ files s2 = files t2
       /\ forall k, k <> 4 -> k <> 5 -> files s2 !! k = files s !! k.
Proof.
  intros s r1 r2. assert (Hne : 4 <> 5) by discriminate.
  split; [reflexivity|]. split; [exact Hne|].
  exact (write_employee_details_commute 4 5 r1 r2 s eq_refl Hne).
Defined.

(** X8. On a partition that is not mounted [write_employee_details]
    changes no file, and [add_new_employee] below the capacity still
    reports the insertion and still adds one to [num_employees] although
    no record was stored. *)
Theorem unmounted_insertion_counts
    (i : Z) (r : EmployeeDetails) (name id age position salary : string) (s : state) :
  spiffs_mutex s = false -> mounted s = false ->
  (exists s', write_employee_details i r s = Some (tt, s')
     /\ files s' = files s /\ num_employees s' = num_employees s)
  /\ (num_employees s < MAX_ROWS ->
      exists s', add_new_employee name id age position salary s = Some (Added, s')
        /\ files s' = files s /\ num_employees s' = num_employees s + 1).
Proof.
  intros Hm Hmt. split.
  - eexists. rewrite write_employee_details_spec by assumption.
    split; [reflexivity|]. unfold written, after. cbn [files num_employees].
    rewrite Hmt. split; reflexivity.
  - intros Hn. eexists. rewrite add_new_employee_spec by assumption.
    split; [reflexivity|]. unfold written, after, set_num. cbn [files num_employees].
    rewrite Hmt. split; reflexivity.
Qed.

Lemma unmounted_insertion_counts_witness :
  spiffs_mutex power_on = false /\ mounted power_on = false
  /\ num_employees power_on < MAX_ROWS
  /\ exists s', add_new_employee "New Employee 1" "EMP011" "25" "New Position 1" "60000"
                  power_on = Some (Added, s')
       /\ files s' = files power_on /\ num_employees s' = num_employees power_on + 1.
Proof.
  assert (Hn : num_employees power_on < MAX_ROWS) by reflexivity.
  split; [reflexivity|]. split; [reflexivity|]. split; [exact Hn|].
  destruct (unmounted_insertion_counts 0 zero_employee
              "New Employee 1" "EMP011" "25" "New Position 1" "60000" power_on
              eq_refl eq_refl) as [_ H].
  exact (H Hn).
Defined.

Lemma slot_view_twice (s : state) (i : Z) (out : EmployeeDetails) :
  slot_view s i (slot_view s i out) = slot_view s i out.
Proof.
  unfold slot_view. destruct (open_r s i); [apply decode_into_indep|reflexivity].
Qed.

(** X9. A read changes no file and not the counter, and it can be
    repeated: a second read of the same slot into the same record leaves
    the record as the first read left it. *)
Theorem read_employee_details_repeatable (i : Z) (out : EmployeeDetails) (s : state) :
  spiffs_mutex s = false ->
  exists e s1 s2, read_employee_details i out s = Some (e, s1)
    /\ files s1 = files s /\ num_employees s1 = num_employees s
    /\ mounted s1 = mounted s
    /\ read_employee_details i e s1 = Some (e, s2).
Proof.
  intros Hm. do 3 eexists. rewrite read_employee_details_spec by assumption.
  split; [reflexivity|]. split; [reflexivity|]. split; [reflexivity|].
  split; [reflexivity|]. rewrite read_employee_details_spec by reflexivity.
  change (slot_view (after (read_events i) (files s) s)) with (slot_view s).
  rewrite slot_view_twice. reflexivity.
Qed.

Lemma read_employee_details_repeatable_witness :
  spiffs_mutex seeded = false
  /\ exists e s1 s2, read_employee_details 8 zero_employee seeded = Some (e, s1)
       /\ files s1 = files seeded /\ num_employees s1 = num_employees seeded
       /\ mounted s1 = mounted seeded
       /\ read_employee_details 8 e s1 = Some (e, s2).
Proof.
  assert (Hm : spiffs_mutex seeded = false) by (vm_compute; reflexivity).
  split; [exact Hm|].
  exact (read_employee_details_repeatable 8 zero_employee seeded Hm).
Defined.

(** ** Table operations: what they touch *)



(** X11. The counter saturates at the capacity: from a free mutex and a
    counter within [0, MAX_ROWS], after any number of insertions in a row
    [num_employees] is the sum of its value before and of the number of
    insertions, capped at [MAX_ROWS]. *)
Theorem insertions_saturate (ops : list table_op) (s : state) :
  spiffs_mutex s = false -> 0 <= num_employees s <= MAX_ROWS ->
  forallb is_insert ops = true ->
  exists s', run_ops ops s = Some (tt, s')
    /\ num_employees s' = Z.min MAX_ROWS (num_employees s + Z.of_nat (length ops)).
Proof.
  revert s; induction ops as [|op ops IH]; intros s Hm Hn Hall.
  - exists s. split; [reflexivity|]. simpl. lia.
  - simpl in Hall. apply andb_prop in Hall as [Hop Hall].
    destruct (run_op_counter op s Hm) as (s1 & Hr & Hm1 & Hc).
    rewrite Hop in Hc. simpl in Hc.
    assert (Hn1 : 0 <= num_employees s1 <= MAX_ROWS).
    { destruct (num_employees s <? MAX_ROWS) eqn:E;
        [apply Z.ltb_lt in E|apply Z.ltb_ge in E]; lia. }
    destruct (IH s1 Hm1 Hn1 Hall) as (s' & Hr' & Hc').
    exists s'. simpl run_ops. unfold mbind, M_bind. rewrite Hr.
    split; [exact Hr'|]. rewrite Hc'. simpl length.
    destruct (num_employees s <? MAX_ROWS) eqn:E;
      [apply Z.ltb_lt in E|apply Z.ltb_ge in E]; lia.
Qed.

Lemma insertions_saturate_witness :
  let s := mkState true ∅ false [] 9 in
  let ops := [OpInsert "A" "K1" "1" "P" "2"; OpInsert "B" "K2" "1" "P" "2";
              OpInsert "C" "K3" "1" "P" "2"] in
  spiffs_mutex s = false /\ 0 <= num_employees s <= MAX_ROWS
  /\ forallb is_insert ops = true
  /\ exists s', run_ops ops s = Some (tt, s')
       /\ num_employees s' = Z.min MAX_ROWS (num_employees s + Z.of_nat (length ops)).
Proof.
  intros s ops.
  assert (Hn : 0 <= num_employees s <= MAX_ROWS) by (split; discriminate).
  split; [reflexivity|]. split; [exact Hn|]. split; [reflexivity|].
  exact (insertions_saturate ops s eq_refl Hn eq_refl).
Defined.

(** X12. A deletion frees no capacity: once the counter has reached
    [MAX_ROWS], an insertion that follows a deletion is still refused,
    and it changes nothing. *)
Theorem deletion_frees_no_capacity
    (junk : Z -> EmployeeDetails) (id name id' age position salary : string) (s : state) :
  spiffs_mutex s = false -> MAX_ROWS <= num_employees s ->
  exists d s1, delete_employee_by_id junk id s = Some (d, s1)
    /\ add_new_employee name id' age position salary s1 = Some (CapacityExceeded, s1).
Proof.
  intros Hm Hn. unfold delete_employee_by_id. rewrite delete_loop_spec by assumption.
  destruct (first_match (id_matches junk id s) (Z.to_nat MAX_ROWS) 0);
    do 2 eexists; (split; [reflexivity|]); apply add_new_employee_full; exact Hn.
Qed.

Lemma deletion_frees_no_capacity_witness :
  let s := set_num 10 seeded in
  spiffs_mutex s = false /\ MAX_ROWS <= num_employees s
  /\ exists d s1, delete_employee_by_id zeroed_stack "EMP003" s = Some (d, s1)
       /\ add_new_employee "New Employee 1" "EMP011" "25" "New Position 1" "60000" s1
          = Some (CapacityExceeded, s1).
Proof.
  intros s.
  assert (Hm : spiffs_mutex s = false) by (vm_compute; reflexivity).
  assert (Hn : MAX_ROWS <= num_employees s) by discriminate.
  split; [exact Hm|]. split; [exact Hn|].
  exact (deletion_frees_no_capacity zeroed_stack "EMP003"
           "New Employee 1" "EMP011" "25" "New Position 1" "60000" s Hm Hn).
Defined.

(** ** The lock discipline of whole runs *)

Lemma locked_io_app (h h' : bool) (e1 e2 : list event) :
  locked_io h e1 = Some h' -> locked_io h (e1 ++ e2) = locked_io h' e2.
Proof.
  revert h; induction e1 as [|e e1 IH]; intros h; simpl.
  - intros [= ->]. reflexivity.
  - destruct e, h; try discriminate; apply IH.
Qed.

Lemma locked_io_scan (n : nat) (i : Z) : locked_io false (scan_events n i) = Some false.
Proof.
  revert i; induction n as [|n IH]; intros i; [reflexivity|]. simpl. apply IH.
Qed.

(** The events of one operation, from a free mutex. *)
Lemma run_op_trace (op : table_op) (s : state) :
  spiffs_mutex s = false ->
  exists evs s', run_op op s = Some (tt, s')
    /\ spiffs_mutex s' = false
    /\ trace s' = trace s ++ evs
    /\ locked_io false evs = Some false.
Proof.
  intros Hm. destruct op as [name id age position salary|junk id|junk id|i r|i out];
    unfold run_op, mbind, M_bind.
  - destruct (Z.lt_ge_cases (num_employees s) MAX_ROWS) as [Hn|Hn].
    + rewrite add_new_employee_spec by assumption.
      exists (write_events (num_employees s)). eexists. split; [reflexivity|].
      split; [reflexivity|]. split; reflexivity.
    + rewrite add_new_employee_full by assumption.
      exists []. eexists. split; [reflexivity|]. split; [assumption|].
      split; [symmetry; apply app_nil_r|reflexivity].
  - unfold get_employee_details_by_id. rewrite get_loop_spec by assumption.
    destruct (first_match _ _ _); do 2 eexists; (split; [reflexivity|]);
      (split; [reflexivity|]); (split; [reflexivity|]); apply locked_io_scan.
  - unfold delete_employee_by_id. rewrite delete_loop_spec by assumption.
    destruct (first_match _ _ _); do 2 eexists; (split; [reflexivity|]);
      (split; [reflexivity|]); (split; [reflexivity|]).
    + rewrite (locked_io_app false false _ _ (locked_io_scan _ _)). reflexivity.
    + apply locked_io_scan.
  - rewrite write_employee_details_spec by assumption.
    do 2 eexists. split; [reflexivity|]. split; [reflexivity|]. split; reflexivity.
  - rewrite read_employee_details_spec by assumption.
    do 2 eexists. split; [reflexivity|]. split; [reflexivity|]. split; reflexivity.
Qed.

(** X13. From a free mutex every sequence of operations returns with the
    mutex free, and in the events it adds to the trace the mutex is never
    taken while held nor given while free, and no [fopen] happens without
    the mutex held: all file access is inside the critical section, and
    no operation blocks on its own lock. *)
Theorem every_fopen_is_under_the_mutex (ops : list table_op) (s : state) :
  spiffs_mutex s = false ->
  exists evs s', run_ops ops s = Some (tt, s')
    /\ spiffs_mutex s' = false
    /\ trace s' = trace s ++ evs
    /\ locked_io false evs = Some false.
Proof.
  revert s; induction ops as [|op ops IH]; intros s Hm.
  - exists [], s. split; [reflexivity|]. split; [assumption|].
    split; [symmetry; apply app_nil_r|reflexivity].
  - destruct (run_op_trace op s Hm) as (e1 & s1 & Hr & Hm1 & Ht1 & Hl1).
    destruct (IH s1 Hm1) as (e2 & s' & Hr' & Hm' & Ht' & Hl').
    exists (e1 ++ e2), s'. simpl run_ops. unfold mbind, M_bind. rewrite Hr.
    split; [exact Hr'|]. split; [exact Hm'|].
    split; [rewrite Ht', Ht1, app_assoc; reflexivity|].
    rewrite (locked_io_app false false e1 e2 Hl1). exact Hl'.
Qed.

Lemma every_fopen_is_under_the_mutex_witness :
  let ops := [OpInsert "A" "K1" "1" "P" "2"; OpFind zeroed_stack "K1";
              OpDelete zeroed_stack "K1"; OpReadSlot 0 zero_employee] in
  spiffs_mutex seeded = false
  /\ exists evs s', run_ops ops seeded = Some (tt, s')
       /\ spiffs_mutex s' = false
       /\ trace s' = trace seeded ++ evs
       /\ locked_io false evs = Some false.
Proof.
  intros ops.
  assert (Hm : spiffs_mutex seeded = false) by (vm_compute; reflexivity).
  split; [exact Hm|].
  exact (every_fopen_is_under_the_mutex ops seeded Hm).
Defined.

(** ** The seeding loop and the start-up sequence *)

(** What the seeding loop leaves in each slot. *)
Lemma seed_loop_effect (es : list EmployeeDetails) (i : Z) (s : state) :
  spiffs_mutex s = false -> mounted s = true ->
  exists s', seed_loop es i s = Some (tt, s')
    /\ spiffs_mutex s' = false /\ mounted s' = true
    /\ num_employees s' = num_employees s
    /\ (forall j, i <= j < i + Z.of_nat (length es) ->
          files s' !! j = encode <$> (es !! Z.to_nat (j - i)))
    /\ (forall j, ~ (i <= j < i + Z.of_nat (length es)) ->
          files s' !! j = files s !! j).
Proof.
  revert i s; induction es as [|e es IH]; intros i s Hm Hmt.
  - exists s. split; [reflexivity|]. repeat split; try assumption.
    intros j Hj. simpl in Hj. lia.
  - simpl seed_loop. rewrite (bind_some _ _ _ _ _ (write_employee_details_spec i e s Hm)).
    destruct (IH (i + 1) (after (write_events i) (written s i e) s) eq_refl Hmt)
      as (s' & Hr & Hm' & Hmt' & Hn & Hin & Hout).
    exists s'. split; [exact Hr|]. split; [exact Hm'|]. split; [exact Hmt'|].
    split; [exact Hn|]. simpl length. split.
    + intros j Hj. destruct (decide (j = i)) as [->|Hne].
      * rewrite Hout by lia. unfold written, after. cbn [files]. rewrite Hmt.
        rewrite lookup_insert_eq, Z.sub_diag. reflexivity.
      * rewrite Hin by lia.
        replace (Z.to_nat (j - i)) with (S (Z.to_nat (j - (i + 1)))) by lia. reflexivity.
    + intros j Hj. rewrite Hout by lia. unfold written, after. cbn [files]. rewrite Hmt.
      rewrite lookup_insert_ne by lia. reflexivity.
Qed.

(** X14. On a mounted partition and from a free mutex, the seeding loop
    over any list of records writes the record number [k] of the list to
    slot [i + k], leaves every file outside these slots as it was, and
    does not change [num_employees]. *)
Theorem seed_loop_fills_slots (es : list EmployeeDetails) (i : Z) (s : state) :
  spiffs_mutex s = false -> mounted s = true ->
  exists s', seed_loop es i s = Some (tt, s')
    /\ spiffs_mutex s' = false /\ mounted s' = true
    /\ num_employees s' = num_employees s
    /\ (forall j, i <= j < i + Z.of_nat (length es) ->
          files s' !! j = encode <$> (es !! Z.to_nat (j - i)))
    /\ (forall j, ~ (i <= j < i + Z.of_nat (length es)) ->
          files s' !! j = files s !! j).
Proof. apply seed_loop_effect. Qed.

Lemma seed_loop_fills_slots_witness :
  let s := mkState true {[ 12 := "kept" ]} false [] 0 in
  spiffs_mutex s = false /\ mounted s = true
  /\ exists s', seed_loop employees 0 s = Some (tt, s')
       /\ files s' !! 8 = encode <$> (employees !! Z.to_nat (8 - 0))
       /\ files s' !! 12 = files s !! 12.
Proof.
  intros s. split; [reflexivity|]. split; [reflexivity|].
  destruct (seed_loop_fills_slots employees 0 s eq_refl eq_refl)
    as (s' & Hr & _ & _ & _ & Hin & Hout).
  exists s'. split; [exact Hr|]. split.
  - apply Hin. simpl. lia.
  - apply Hout. simpl. lia.
Defined.

Lemma seed_loop_returns (es : list EmployeeDetails) (i : Z) (s : state) :
  spiffs_mutex s = false ->
  exists evs fs, seed_loop es i s = Some (tt, after evs fs s).
Proof.
  revert i s; induction es as [|e es IH]; intros i s Hm.
  - exists [], (files s). simpl. rewrite (after_nil s Hm). reflexivity.
  - simpl seed_loop. rewrite (bind_some _ _ _ _ _ (write_employee_details_spec i e s Hm)).
    destruct (IH (i + 1) (after (write_events i) (written s i e) s) eq_refl) as (evs & fs & Hr).
    rewrite Hr, after_after. do 2 eexists. reflexivity.
Qed.

(** X15. The start-up sequence always runs to its end: whether or not the
    partition mounts, whatever it holds and whatever the uninitialised
    locals hold, [app_main] returns with the mutex free and
    [num_employees] at 4. *)
Theorem app_main_returns
    (flash : option (gmap Z string)) (junk_delete junk_get : Z -> EmployeeDetails) :
  exists r s', app_main flash junk_delete junk_get power_on = Some (r, s')
    /\ spiffs_mutex s' = false /\ num_employees s' = 4.
Proof.
  unfold app_main.
  rewrite (bind_some create_mutex _ power_on _ tt eq_refl).
  assert (H0 : exists s0, initialize_spiffs flash (set_mutex false power_on) = Some (tt, s0)
                 /\ spiffs_mutex s0 = false /\ num_employees s0 = 0).
  { destruct flash; eexists; (split; [reflexivity|]); split; reflexivity. }
  destruct H0 as (s0 & Hi & Hm0 & Hn0).
  rewrite (bind_some _ _ _ _ _ Hi).
  destruct (seed_loop_returns employees 0 s0 Hm0) as (evs & fs & Hseed).
  rewrite (bind_some _ _ _ _ _ Hseed).
  assert (Hadd : forall name id age position salary s n,
             spiffs_mutex s = false -> num_employees s = n -> n < MAX_ROWS ->
             exists s', add_new_employee name id age position salary s = Some (Added, s')
               /\ spiffs_mutex s' = false /\ num_employees s' = n + 1).
  { intros name id age position salary s n Hm Hn Hlt. eexists.
    rewrite add_new_employee_spec by (try assumption; lia).
    split; [reflexivity|]. split; [reflexivity|]. simpl. lia. }
  destruct (Hadd "New Employee 1" "EMP011" "25" "New Position 1" "60000"
              (after evs fs s0) 0 eq_refl Hn0 eq_refl) as (s1 & H1 & Hm1 & Hn1).
  rewrite (bind_some _ _ _ _ _ H1).
  destruct (Hadd "New Employee 2" "EMP012" "27" "New Position 2" "65000"
              s1 1 Hm1 Hn1 eq_refl) as (s2 & H2 & Hm2 & Hn2).
  rewrite (bind_some _ _ _ _ _ H2).
  destruct (Hadd "New Employee 3" "EMP013" "29" "New Position 3" "70000"
              s2 2 Hm2 Hn2 eq_refl) as (s3 & H3 & Hm3 & Hn3).
  rewrite (bind_some _ _ _ _ _ H3).
  destruct (Hadd "New Employee 4" "EMP014" "30" "New Position 4" "75000"
              s3 3 Hm3 Hn3 eq_refl) as (s4 & H4 & Hm4 & Hn4).
  rewrite (bind_some _ _ _ _ _ H4).
  unfold delete_employee_by_id, get_employee_details_by_id, mbind, M_bind.
  rewrite delete_loop_spec by exact Hm4.
  destruct (first_match (id_matches junk_delete "EMP006" s4) (Z.to_nat MAX_ROWS) 0);
    rewrite get_loop_spec by reflexivity;
    destruct (first_match _ _ _); do 2 eexists;
    (split; [reflexivity|]); (split; [reflexivity|]); exact Hn4.
Qed.

(** ** How insertion, deletion and lookup compose *)

Lemma first_match_agree (p q : Z -> bool) (n : nat) (i : Z) :
  (forall j, i <= j < i + Z.of_nat n -> p j = q j) ->
  first_match p n i = first_match q n i.
Proof.
  revert i; induction n as [|n IH]; intros i H; simpl; [reflexivity|].
  rewrite (H i) by lia. destruct (q i); [reflexivity|]. apply IH. intros j Hj. apply H. lia.
Qed.

(** Two lookups whose scans see the same matches return the same record. *)
Lemma get_agree (junk1 junk2 : Z -> EmployeeDetails) (id : string) (s1 s2 : state) :
  spiffs_mutex s1 = false -> spiffs_mutex s2 = false ->
  (forall j, 0 <= j < MAX_ROWS -> id_matches junk1 id s1 j = id_matches junk2 id s2 j) ->
  (forall j, 0 <= j < MAX_ROWS -> id_matches junk1 id s1 j = true ->
     slot_view s1 j (junk1 j) = slot_view s2 j (junk2 j)) ->
  exists r t1 t2, get_employee_details_by_id junk1 id s1 = Some (r, t1)
    /\ get_employee_details_by_id junk2 id s2 = Some (r, t2).
Proof.
  intros Hm1 Hm2 Hp Hv. unfold get_employee_details_by_id.
  rewrite !get_loop_spec by assumption.
  rewrite <- (first_match_agree (id_matches junk1 id s1) (id_matches junk2 id s2))
    by (intros j Hj; apply Hp; unfold MAX_ROWS in *; lia).
  destruct (first_match (id_matches junk1 id s1) (Z.to_nat MAX_ROWS) 0) as [k|] eqn:F.
  - apply first_match_Some in F as (Hk & Hpk & _).
    rewrite <- (Hv k) by (try exact Hpk; unfold MAX_ROWS in *; lia).
    do 3 eexists. split; reflexivity.
  - do 3 eexists. split; reflexivity.
Qed.

(** A lookup that sees no match returns the all-zero record. *)
Lemma get_none (junk : Z -> EmployeeDetails) (id : string) (s : state) :
  spiffs_mutex s = false ->
  (forall j, 0 <= j < MAX_ROWS -> id_matches junk id s j = false) ->
  exists t, get_employee_details_by_id junk id s = Some (zero_employee, t)
    /\ num_employees t = num_employees s.
Proof.
  intros Hm Hp. unfold get_employee_details_by_id. rewrite get_loop_spec by assumption.
  rewrite first_match_absent by (intros j Hj; apply Hp; unfold MAX_ROWS in *; lia).
  eexists. split; reflexivity.
Qed.

Lemma field_ok_c_str (f : string) : field_ok f = true -> c_str f = f /\ f <> EmptyString.
Proof.
  intros H. apply field_ok_inv in H as (Hne & _ & Hp). split; [apply plain_c_str; exact Hp|exact Hne].
Qed.

Lemma record_ok_ID (r : EmployeeDetails) :
  record_ok r = true -> c_str (Employee_ID r) <> EmptyString.
Proof.
  unfold record_ok. intros H.
  apply andb_prop in H as [H _]. apply andb_prop in H as [H _].
  apply andb_prop in H as [H _]. apply andb_prop in H as [_ H].
  apply field_ok_c_str in H as [-> Hne]. exact Hne.
Qed.

(** X16. Deleting one key does not disturb the lookup of another: on a
    mounted partition where the files of all [MAX_ROWS] slots exist, a
    lookup of a non-empty key returns the same record after a
    [delete_employee_by_id] of a different key as before it. *)
Theorem delete_keeps_other_keys
    (junk junk1 junk2 : Z -> EmployeeDetails) (id1 id2 : string) (s : state) :
  spiffs_mutex s = false -> slots_present s MAX_ROWS ->
  c_str id2 <> c_str id1 -> c_str id2 <> EmptyString ->
  exists r d s0 s1 s2,
    get_employee_details_by_id junk id2 s = Some (r, s0)
    /\ delete_employee_by_id junk1 id1 s = Some (d, s1)
    /\ get_employee_details_by_id junk2 id2 s1 = Some (r, s2).
Proof.
  intros Hm Hpres Hne Hnz. pose proof Hpres as [Hmt Hfiles].
  unfold delete_employee_by_id. rewrite delete_loop_spec by assumption.
  destruct (first_match (id_matches junk1 id1 s) (Z.to_nat MAX_ROWS) 0) as [k|] eqn:F.
  - apply first_match_Some in F as (Hk & Hpk & _).
    assert (Hkr : 0 <= k < MAX_ROWS) by (unfold MAX_ROWS in *; lia).
    rewrite (id_matches_present junk1 id1 s MAX_ROWS k Hpres Hkr) in Hpk.
    apply strcmp_eq_true in Hpk.
    set (s1 := after (scan_events (scan_len 0 k) 0 ++ write_events k)
                 (written s k zero_employee) s).
    assert (Hold : id_matches junk id2 s k = false).
    { rewrite (id_matches_present junk id2 s MAX_ROWS k Hpres Hkr).
      apply strcmp_eq_false. congruence. }
    destruct (get_agree junk junk2 id2 s s1 Hm eq_refl) as (r & t1 & t2 & H1 & H2).
    + intros j Hj. destruct (decide (j = k)) as [->|Hjk].
      * rewrite Hold. symmetry. unfold id_matches, s1.
        rewrite (slot_view_written_eq _ s k zero_employee _ Hmt).
        apply strcmp_eq_false. simpl. congruence.
      * unfold id_matches, s1. rewrite (slot_view_written_ne _ s k j zero_employee _ Hjk).
        rewrite !(slot_view_present s j _ Hmt) by (apply Hfiles; exact Hj). reflexivity.
    + intros j Hj Hpj. destruct (decide (j = k)) as [->|Hjk]; [congruence|].
      unfold s1. rewrite (slot_view_written_ne _ s k j zero_employee _ Hjk).
      rewrite !(slot_view_present s j _ Hmt) by (apply Hfiles; exact Hj). reflexivity.
    + exists r, Deleted, t1, s1, t2. split; [exact H1|]. split; [reflexivity|exact H2].
  - set (s1 := after (scan_events (Z.to_nat MAX_ROWS) 0) (files s) s).
    destruct (get_agree junk junk2 id2 s s1 Hm eq_refl) as (r & t1 & t2 & H1 & H2).
    + intros j Hj. unfold id_matches, s1.
      change (slot_view (after (scan_events (Z.to_nat MAX_ROWS) 0) (files s) s))
        with (slot_view s).
      rewrite !(slot_view_present s j _ Hmt) by (apply Hfiles; exact Hj). reflexivity.
    + intros j Hj _. unfold s1.
      change (slot_view (after (scan_events (Z.to_nat MAX_ROWS) 0) (files s) s))
        with (slot_view s).
      rewrite !(slot_view_present s j _ Hmt) by (apply Hfiles; exact Hj). reflexivity.
    + exists r, NotFound, t1, s1, t2. split; [exact H1|]. split; [reflexivity|exact H2].
Qed.

Lemma delete_keeps_other_keys_witness :
  spiffs_mutex seeded = false /\ slots_present seeded MAX_ROWS
  /\ c_str "EMP009" <> c_str "EMP006" /\ c_str "EMP009" <> EmptyString
  /\ exists r d s0 s1 s2,
       get_employee_details_by_id zeroed_stack "EMP009" seeded = Some (r, s0)
       /\ delete_employee_by_id zeroed_stack "EMP006" seeded = Some (d, s1)
       /\ get_employee_details_by_id zeroed_stack "EMP009" s1 = Some (r, s2).
Proof.
  assert (Hm : spiffs_mutex seeded = false) by (vm_compute; reflexivity).
  assert (H1 : c_str "EMP009" <> c_str "EMP006") by (vm_compute; discriminate).
  assert (H2 : c_str "EMP009" <> EmptyString) by (vm_compute; discriminate).
  split; [exact Hm|]. split; [exact seeded_slots_present|]. split; [exact H1|].
  split; [exact H2|].
  exact (delete_keeps_other_keys zeroed_stack zeroed_stack zeroed_stack "EMP006" "EMP009"
           seeded Hm seeded_slots_present H1 H2).
Defined.

(** X17. A record that was inserted and then deleted is gone: on a
    mounted partition where the files of all [MAX_ROWS] slots exist, with
    the counter in [0, MAX_ROWS), after [add_new_employee] of a record
    whose stored fields are well formed and whose identifier no other
    slot holds, [delete_employee_by_id] of that identifier reports the
    deletion and a lookup of it then finds nothing; the counter stays one
    above its first value. *)
Theorem insert_delete_then_not_found
    (junk1 junk2 : Z -> EmployeeDetails) (name id age position salary : string) (s : state) :
  let r := new_employee name id age position salary in
  spiffs_mutex s = false -> 0 <= num_employees s < MAX_ROWS ->
  slots_present s MAX_ROWS -> record_ok r = true ->
  (forall j, 0 <= j < MAX_ROWS -> j <> num_employees s ->
     c_str (Employee_ID (slot_record s j)) <> c_str (Employee_ID r)) ->
  exists s1 s2 s3,
    add_new_employee name id age position salary s = Some (Added, s1)
    /\ delete_employee_by_id junk1 (Employee_ID r) s1 = Some (Deleted, s2)
    /\ get_employee_details_by_id junk2 (Employee_ID r) s2 = Some (zero_employee, s3)
    /\ num_employees s3 = num_employees s + 1.
Proof.
  intros r Hm Hn Hpres Hok Hothers. pose proof Hpres as [Hmt Hfiles].
  pose proof (add_new_employee_spec name id age position salary s Hm (proj2 Hn)) as Hadd.
  fold r in Hadd.
  set (n := num_employees s) in *.
  set (s1 := set_num (n + 1) (after (write_events n) (written s n r) s)) in *.
  assert (Hv1 : forall j out, j <> n -> 0 <= j < MAX_ROWS ->
            slot_view s1 j out = slot_record s j).
  { intros j out Hj Hr. unfold s1.
    change (slot_view (set_num (n + 1) ?x)) with (slot_view x).
    rewrite (slot_view_written_ne _ s n j r _ Hj).
    apply slot_view_present; [exact Hmt|apply Hfiles; exact Hr]. }
  assert (F : first_match (id_matches junk1 (Employee_ID r) s1) (Z.to_nat MAX_ROWS) 0 = Some n).
  { apply first_match_found.
    - unfold MAX_ROWS in *. lia.
    - unfold id_matches, s1. change (slot_view (set_num (n + 1) ?x)) with (slot_view x).
      rewrite (slot_view_written_eq _ s n r _ Hmt), (decode_encode r _ Hok).
      apply strcmp_eq_true. reflexivity.
    - intros j Hj. unfold id_matches. rewrite Hv1 by (unfold MAX_ROWS in *; lia).
      apply strcmp_eq_false. apply Hothers; unfold MAX_ROWS in *; lia. }
  set (s2 := after (scan_events (scan_len 0 n) 0 ++ write_events n)
               (written s1 n zero_employee) s1).
  assert (Hdel : delete_employee_by_id junk1 (Employee_ID r) s1 = Some (Deleted, s2)).
  { unfold delete_employee_by_id. rewrite delete_loop_spec by reflexivity. rewrite F.
    reflexivity. }
  destruct (get_none junk2 (Employee_ID r) s2 eq_refl) as (s3 & Hg & Hc).
  { intros j Hj. unfold id_matches, s2. destruct (decide (j = n)) as [->|Hjn].
    - rewrite (slot_view_written_eq _ s1 n zero_employee _ Hmt), decode_encode_zero.
      apply strcmp_eq_false. change (c_str (Employee_ID zero_employee)) with EmptyString.
      apply not_eq_sym. apply record_ok_ID. exact Hok.
    - rewrite (slot_view_written_ne _ s1 n j zero_employee _ Hjn).
      rewrite Hv1 by assumption. apply strcmp_eq_false. apply Hothers; assumption. }
  exists s1, s2, s3. split; [exact Hadd|]. split; [exact Hdel|]. split; [exact Hg|].
  rewrite Hc. reflexivity.
Qed.

Lemma seeded_has_no_EMP011 (j : Z) :
  0 <= j < MAX_ROWS ->
  c_str (Employee_ID (slot_record seeded j)) <> c_str "EMP011"
  /\ (j <> 0 -> c_str (Employee_ID (slot_record seeded j)) <> c_str "EMP001").
Proof.
  intros Hj. each_slot j Hj; (split; [vm_compute; discriminate|]);
    intros Hne; try congruence; vm_compute; discriminate.
Qed.

Lemma insert_delete_then_not_found_witness :
  let r := new_employee "New Employee 1" "EMP011" "25" "New Position 1" "60000" in
  spiffs_mutex seeded = false /\ 0 <= num_employees seeded < MAX_ROWS
  /\ slots_present seeded MAX_ROWS /\ record_ok r = true
  /\ exists s1 s2 s3,
       add_new_employee "New Employee 1" "EMP011" "25" "New Position 1" "60000" seeded
       = Some (Added, s1)
       /\ delete_employee_by_id zeroed_stack (Employee_ID r) s1 = Some (Deleted, s2)
       /\ get_employee_details_by_id zeroed_stack (Employee_ID r) s2
          = Some (zero_employee, s3)
       /\ num_employees s3 = num_employees seeded + 1.
Proof.
  intros r.
  assert (Hm : spiffs_mutex seeded = false) by (vm_compute; reflexivity).
  assert (Hn : 0 <= num_employees seeded < MAX_ROWS)
    by (split; [vm_compute; discriminate|vm_compute; reflexivity]).
  assert (Hok : record_ok r = true) by (vm_compute; reflexivity).
  split; [exact Hm|]. split; [exact Hn|]. split; [exact seeded_slots_present|].
  split; [exact Hok|].
  exact (insert_delete_then_not_found zeroed_stack zeroed_stack
           "New Employee 1" "EMP011" "25" "New Position 1" "60000" seeded
           Hm Hn seeded_slots_present Hok
           (fun j Hj _ => proj1 (seeded_has_no_EMP011 j Hj))).
Defined.

(** X18. An insertion takes the slot numbered by the counter whatever
    that slot holds: on a mounted partition where the files of all
    [MAX_ROWS] slots exist, after [add_new_employee] of a well-formed
    record, a key that differs from the new identifier and that no slot
    other than slot [num_employees] held is no longer found. *)
Theorem insertion_overwrites_occupant
    (junk : Z -> EmployeeDetails) (name id age position salary id0 : string) (s : state) :
  let r := new_employee name id age position salary in
  spiffs_mutex s = false -> 0 <= num_employees s < MAX_ROWS ->
  slots_present s MAX_ROWS -> record_ok r = true ->
  c_str id0 <> c_str (Employee_ID r) ->
  (forall j, 0 <= j < MAX_ROWS -> j <> num_employees s ->
     c_str (Employee_ID (slot_record s j)) <> c_str id0) ->
  exists s1 s2,
    add_new_employee name id age position salary s = Some (Added, s1)
    /\ files s1 = <[num_employees s := encode r]> (files s)
    /\ get_employee_details_by_id junk id0 s1 = Some (zero_employee, s2).
Proof.
  intros r Hm Hn Hpres Hok Hne Hothers. pose proof Hpres as [Hmt Hfiles].
  pose proof (add_new_employee_spec name id age position salary s Hm (proj2 Hn)) as Hadd.
  fold r in Hadd.
  set (n := num_employees s) in *.
  set (s1 := set_num (n + 1) (after (write_events n) (written s n r) s)) in *.
  destruct (get_none junk id0 s1 eq_refl) as (s2 & Hg & _).
  { intros j Hj. unfold id_matches, s1.
    change (slot_view (set_num (n + 1) ?x)) with (slot_view x).
    destruct (decide (j = n)) as [->|Hjn].
    - rewrite (slot_view_written_eq _ s n r _ Hmt), (decode_encode r _ Hok).
      apply strcmp_eq_false. congruence.
    - rewrite (slot_view_written_ne _ s n j r _ Hjn).
      rewrite (slot_view_present s j _ Hmt) by (apply Hfiles; exact Hj).
      apply strcmp_eq_false. apply Hothers; assumption. }
  exists s1, s2. split; [exact Hadd|]. split; [|exact Hg].
  unfold s1, written, after, set_num. cbn [files]. rewrite Hmt. reflexivity.
Qed.

(** The first insertion of [app_main] on the seeded table: "EMP001" is
    lost. *)
Lemma insertion_overwrites_occupant_witness :
  let r := new_employee "New Employee 1" "EMP011" "25" "New Position 1" "60000" in
  spiffs_mutex seeded = false /\ 0 <= num_employees seeded < MAX_ROWS
  /\ slots_present seeded MAX_ROWS /\ record_ok r = true
  /\ c_str "EMP001" <> c_str (Employee_ID r)
  /\ exists s1 s2,
       add_new_employee "New Employee 1" "EMP011" "25" "New Position 1" "60000" seeded
       = Some (Added, s1)
       /\ files s1 = <[num_employees seeded := encode r]> (files seeded)
       /\ get_employee_details_by_id zeroed_stack "EMP001" s1 = Some (zero_employee, s2).
Proof.
  intros r.
  assert (Hm : spiffs_mutex seeded = false) by (vm_compute; reflexivity).
  assert (Hn : 0 <= num_employees seeded < MAX_ROWS)
    by (split; [vm_compute; discriminate|vm_compute; reflexivity]).
  assert (Hok : record_ok r = true) by (vm_compute; reflexivity).
  assert (Hne : c_str "EMP001" <> c_str (Employee_ID r)) by (vm_compute; discriminate).
  split; [exact Hm|]. split; [exact Hn|]. split; [exact seeded_slots_present|].
  split; [exact Hok|]. split; [exact Hne|].
  exact (insertion_overwrites_occupant zeroed_stack
           "New Employee 1" "EMP011" "25" "New Position 1" "60000" "EMP001" seeded
           Hm Hn seeded_slots_present Hok Hne
           (fun j Hj Hj0 => proj2 (seeded_has_no_EMP011 j Hj)
                              ltac:(change (num_employees seeded) with 0 in Hj0; exact Hj0))).
Defined.

(** X19. A lookup never answers with the record of another key: from a
    free mutex [get_employee_details_by_id] returns either the all-zero
    record or a record whose identifier is the same C string as the key,
    and it leaves the files, the counter and the mutex as they were. *)
Theorem get_employee_details_by_id_sound
    (junk : Z -> EmployeeDetails) (id : string) (s : state) :
  spiffs_mutex s = false ->
  exists r s', get_employee_details_by_id junk id s = Some (r, s')
    /\ (r = zero_employee \/ c_str (Employee_ID r) = c_str id)
    /\ files s' = files s /\ num_employees s' = num_employees s
    /\ spiffs_mutex s' = false.
Proof.
  intros Hm. unfold get_employee_details_by_id. rewrite get_loop_spec by assumption.
  destruct (first_match (id_matches junk id s) (Z.to_nat MAX_ROWS) 0) as [k|] eqn:F.
  - apply first_match_Some in F as (_ & Hp & _). apply strcmp_eq_true in Hp.
    do 2 eexists. split; [reflexivity|]. split; [right; exact Hp|].
    split; [reflexivity|]. split; reflexivity.
  - do 2 eexists. split; [reflexivity|]. split; [left; reflexivity|].
    split; [reflexivity|]. split; reflexivity.
Qed.

Lemma get_employee_details_by_id_sound_witness :
  spiffs_mutex seeded = false
  /\ exists r s', get_employee_details_by_id zeroed_stack "EMP004" seeded = Some (r, s')
       /\ (r = zero_employee \/ c_str (Employee_ID r) = c_str "EMP004").
Proof.
  assert (Hm : spiffs_mutex seeded = false) by (vm_compute; reflexivity).
  split; [exact Hm|].
  destruct (get_employee_details_by_id_sound zeroed_stack "EMP004" seeded Hm)
    as (r & s' & Hg & Hr & _).
  exists r, s'. split; assumption.
Defined.

(** X20. Seeding then lookup: on a mounted partition and from a free
    mutex, after the seeding loop has written at most [MAX_ROWS]
    well-formed records from slot 0, the lookup of the identifier of any
    of them returns that record, provided no record before it in the
    list has the same identifier. *)
Theorem seed_then_find
    (junk : Z -> EmployeeDetails) (es : list EmployeeDetails) (k : nat)
    (e : EmployeeDetails) (s : state) :
  spiffs_mutex s = false -> mounted s = true ->
  Z.of_nat (length es) <= MAX_ROWS ->
  (forall j e', es !! j = Some e' -> record_ok e' = true) ->
  es !! k = Some e ->
  (forall j e', (j < k)%nat -> es !! j = Some e' -> Employee_ID e' <> Employee_ID e) ->
  exists s1 s2, seed_loop es 0 s = Some (tt, s1)
    /\ get_employee_details_by_id junk (Employee_ID e) s1 = Some (e, s2).
Proof.
  intros Hm Hmt Hlen Hok Hk Hdistinct.
  destruct (seed_loop_effect es 0 s Hm Hmt) as (s1 & Hr & Hm1 & Hmt1 & _ & Hin & _).
  pose proof (lookup_lt_Some _ _ _ Hk) as Hklt.
  assert (Hfile : forall j e', es !! j = Some e' ->
            files s1 !! Z.of_nat j = Some (encode e')).
  { intros j e' Hj. pose proof (lookup_lt_Some _ _ _ Hj) as Hjlt.
    rewrite Hin by lia. rewrite Z.sub_0_r, Nat2Z.id, Hj. reflexivity. }
  assert (Hce : c_str (Employee_ID e) = Employee_ID e).
  { pose proof (Hok k e Hk) as H. unfold record_ok in H.
    apply andb_prop in H as [H _]. apply andb_prop in H as [H _].
    apply andb_prop in H as [H _]. apply andb_prop in H as [_ H].
    apply field_ok_c_str in H as [H _]. exact H. }
  assert (F : first_match (id_matches junk (Employee_ID e) s1) (Z.to_nat MAX_ROWS) 0
              = Some (Z.of_nat k)).
  { apply first_match_found.
    - unfold MAX_ROWS in *. lia.
    - rewrite (id_matches_file junk _ s1 _ e Hmt1 (Hfile k e Hk) (or_introl (Hok k e Hk))).
      apply strcmp_eq_true. reflexivity.
    - intros j Hj.
      destruct (es !! Z.to_nat j) as [e'|] eqn:Ej;
        [|apply lookup_ge_None in Ej; lia].
      pose proof (Hfile _ _ Ej) as Hf. rewrite Z2Nat.id in Hf by lia.
      rewrite (id_matches_file junk _ s1 _ e' Hmt1 Hf (or_introl (Hok _ _ Ej))).
      apply strcmp_eq_false. rewrite Hce.
      pose proof (Hok _ _ Ej) as H. unfold record_ok in H.
      apply andb_prop in H as [H _]. apply andb_prop in H as [H _].
      apply andb_prop in H as [H _]. apply andb_prop in H as [_ H].
      apply field_ok_c_str in H as [-> _].
      apply (Hdistinct (Z.to_nat j) e'); [lia|exact Ej]. }
  exists s1. eexists. split; [exact Hr|].
  unfold get_employee_details_by_id. rewrite get_loop_spec by exact Hm1. rewrite F.
  rewrite (slot_view_file s1 _ e _ Hmt1 (Hfile k e Hk) (Hok k e Hk)). reflexivity.
Qed.

Lemma employees_record_ok (j : nat) (e' : EmployeeDetails) :
  employees !! j = Some e' -> record_ok e' = true.
Proof.
  intros H. do 10 (destruct j as [|j]; [injection H as <-; reflexivity|]). discriminate H.
Qed.

Lemma employees_before_Sai (j : nat) (e' : EmployeeDetails) :
  (j < 8)%nat -> employees !! j = Some e' ->
  Employee_ID e' <> Employee_ID (mkEmployee "Sai" "EMP009" "26" "Developer" "25000").
Proof.
  intros Hj H. do 8 (destruct j as [|j]; [injection H as <-; discriminate|]). lia.
Qed.

Lemma seed_then_find_witness :
  let s := mkState true ∅ false [] 0 in
  let e := mkEmployee "Sai" "EMP009" "26" "Developer" "25000" in
  spiffs_mutex s = false /\ mounted s = true
  /\ Z.of_nat (length employees) <= MAX_ROWS
  /\ employees !! 8%nat = Some e
  /\ exists s1 s2, seed_loop employees 0 s = Some (tt, s1)
       /\ get_employee_details_by_id zeroed_stack (Employee_ID e) s1 = Some (e, s2).
Proof.
  intros s e.
  assert (Hlen : Z.of_nat (length employees) <= MAX_ROWS) by discriminate.
  split; [reflexivity|]. split; [reflexivity|]. split; [exact Hlen|].
  split; [reflexivity|].
  exact (seed_then_find zeroed_stack employees 8 e s eq_refl eq_refl Hlen
           employees_record_ok eq_refl employees_before_Sai).
Defined.

(** X21. When the partition is mounted and the files of all [MAX_ROWS]
    slots exist, [get_employee_details_by_id] does what its scan is
    meant to do, whatever its uninitialised local holds: it reads the
    slots in ascending order and returns the decoded record of the
    lowest slot whose decoded identifier is the same C string as the
    key, reading no slot after it; when no slot holds the key it returns
    the all-zero record after reading all [MAX_ROWS] slots. The value of
    [num_employees] has no influence. *)
Theorem get_employee_details_by_id_all_files
    (junk : Z -> EmployeeDetails) (id : string) (s : state) :
  spiffs_mutex s = false -> slots_present s MAX_ROWS ->
  exists r s',
    get_employee_details_by_id junk id s = Some (r, s')
    /\ files s' = files s
    /\ ((exists k st, 0 <= k < MAX_ROWS
           /\ files s !! k = Some st
           /\ r = decode_into st zero_employee
           /\ c_str (Employee_ID r) = c_str id
           /\ (forall j, 0 <= j < k ->
                 c_str (Employee_ID (slot_record s j)) <> c_str id)
           /\ trace s' = trace s ++ scan_events (S (Z.to_nat k)) 0)
        \/ ((forall j, 0 <= j < MAX_ROWS ->
                 c_str (Employee_ID (slot_record s j)) <> c_str id)
            /\ r = zero_employee
            /\ trace s' = trace s ++ scan_events (Z.to_nat MAX_ROWS) 0))
    /\ (forall n, exists s'',
          get_employee_details_by_id junk id (set_num n s) = Some (r, s'')).
Proof.
  intros Hm Hpres. pose proof Hpres as [Hmt Hfiles].
  unfold get_employee_details_by_id.
  assert (Hn : forall n, get_loop junk id (Z.to_nat MAX_ROWS) 0 (set_num n s) =
             Some (match first_match (id_matches junk id s) (Z.to_nat MAX_ROWS) 0 with
                   | Some k => (slot_view s k (junk k),
                                after (scan_events (scan_len 0 k) 0) (files s) (set_num n s))
                   | None => (zero_employee,
                              after (scan_events (Z.to_nat MAX_ROWS) 0) (files s) (set_num n s))
                   end)).
  { intros n. rewrite get_loop_spec by exact Hm. reflexivity. }
  rewrite get_loop_spec by assumption.
  destruct (first_match (id_matches junk id s) (Z.to_nat MAX_ROWS) 0) as [k|] eqn:F.
  - apply first_match_Some in F as (Hk & Hp & Hlt).
    assert (Hkr : 0 <= k < MAX_ROWS) by (unfold MAX_ROWS in *; lia).
    destruct (Hfiles k Hkr) as [st Hst].
    assert (Ho : open_r s k = Some st) by (unfold open_r; rewrite Hmt; exact Hst).
    do 2 eexists. split; [reflexivity|]. split; [reflexivity|]. split.
    + left. exists k, st. split; [exact Hkr|]. split; [exact Hst|].
      split; [apply slot_view_open; exact Ho|].
      split; [apply strcmp_eq_true; exact Hp|].
      split.
      * intros j Hj. apply strcmp_eq_false.
        rewrite <- (id_matches_present junk id s MAX_ROWS j Hpres) by lia.
        apply Hlt. exact Hj.
      * unfold scan_len. rewrite Z.sub_0_r. reflexivity.
    + intros n. rewrite Hn. eexists. reflexivity.
  - pose proof (first_match_None _ _ _ F) as Hnone.
    do 2 eexists. split; [reflexivity|]. split; [reflexivity|]. split.
    + right. split; [|split; reflexivity].
      intros j Hj. apply strcmp_eq_false.
      rewrite <- (id_matches_present junk id s MAX_ROWS j Hpres) by exact Hj.
      apply Hnone. unfold MAX_ROWS in *. lia.
    + intros n. rewrite Hn. eexists. reflexivity.
Qed.

Lemma get_employee_details_by_id_all_files_witness :
  spiffs_mutex seeded = false /\ slots_present seeded MAX_ROWS
  /\ exists r s', get_employee_details_by_id zeroed_stack "EMP009" seeded = Some (r, s')
       /\ files s' = files seeded.
Proof.
  assert (Hm : spiffs_mutex seeded = false) by (vm_compute; reflexivity).
  split; [exact Hm|]. split; [exact seeded_slots_present|].
  destruct (get_employee_details_by_id_all_files zeroed_stack "EMP009" seeded Hm
              seeded_slots_present) as (r & s' & Hg & Hf & _).
  exists r, s'. split; assumption.
Defined.
